(** * cosvoiceai: comment queue, single-flight reply dispatcher, backends,
      and the stop() guard of the TikTok connection supervisor.

    A shallow embedding of [src/ai_reply_manager.py] and of the control
    API, the comment handler, the loop thread and the emit helpers of
    [TikTokCommentFetcher] from [src/tiktok_monitor.py], followed by the
    properties checked against it.

    Conventions.
    - A Python [str] is a list of Unicode code points ([Py.str]).
    - A Python call that may raise is a value of [Py.result]: [Ok v] when it
      returns [v], [Raise e] when exception [e] propagates out of it.
    - What the interpreter and the third-party libraries decide (Unicode case
      mapping, [repr], the HTTP peer, the OpenAI SDK, the Qt signal bridge)
      is not code of this repository; it enters the model as data that the
      theorems quantify over. *)

From Stdlib Require Import List NArith ZArith QArith String Ascii Bool Lia.
From Stdlib Require Import Floats.SpecFloat.
Import ListNotations.

Set Warnings "-register-all".

(* ===================================================================== *)
(** * Python values used by the program *)
(* ===================================================================== *)
Module Py.

(** ** Strings: sequences of code points *)

Definition char := N.
Definition str := list char.

(** Literals are written as UTF-8 text and decoded to code points. [need] is
    the number of continuation bytes still expected, [acc] the code point
    assembled so far. *)
Fixpoint utf8_decode (need : nat) (acc : N) (bs : list N) : str :=
  match bs with
  | [] => []
  | b :: bs' =>
      match need with
      | O =>
          if (b <? 0x80)%N then b :: utf8_decode 0 0%N bs'
          else if (b <? 0xE0)%N then utf8_decode 1 (N.land b 0x1F) bs'
          else if (b <? 0xF0)%N then utf8_decode 2 (N.land b 0x0F) bs'
          else utf8_decode 3 (N.land b 0x07) bs'
      | S k =>
          let acc' := N.lor (N.shiftl acc 6) (N.land b 0x3F) in
          match k with
          | O => acc' :: utf8_decode 0 0%N bs'
          | S _ => utf8_decode k acc' bs'
          end
      end
  end.

Definition lit (s : string) : str :=
  utf8_decode 0 0%N (map N_of_ascii (list_ascii_of_string s)).

Definition char_eqb (a b : char) : bool := N.eqb a b.

Fixpoint str_eqb (a b : str) : bool :=
  match a, b with
  | [], [] => true
  | x :: a', y :: b' => char_eqb x y && str_eqb a' b'
  | _, _ => false
  end.

(** Truth value of a string: non-empty. *)
Definition truthy_str (s : str) : bool :=
  match s with [] => false | _ :: _ => true end.

(** [strip_prefix p s] is [Some r] when [s = p ++ r]. *)
Fixpoint strip_prefix (p s : str) : option str :=
  match p with
  | [] => Some s
  | c :: p' =>
      match s with
      | [] => None
      | d :: s' => if char_eqb c d then strip_prefix p' s' else None
      end
  end.

(** [s.startswith(p)] *)
Definition startswith (s p : str) : bool :=
  match strip_prefix p s with Some _ => true | None => false end.

(** [p in s] (substring test). *)
Fixpoint contains (s p : str) : bool :=
  startswith s p ||
  match s with
  | [] => false
  | _ :: s' => contains s' p
  end.

(** [str.isspace] on one code point (the Unicode whitespace set of CPython). *)
Definition isspace (c : char) : bool :=
  ((0x09 <=? c) && (c <=? 0x0D) || (0x1C <=? c) && (c <=? 0x20)
   || (c =? 0x85) || (c =? 0xA0) || (c =? 0x1680)
   || (0x2000 <=? c) && (c <=? 0x200A)
   || (c =? 0x2028) || (c =? 0x2029) || (c =? 0x202F) || (c =? 0x205F)
   || (c =? 0x3000))%N.

Fixpoint lstrip_by (drop : char -> bool) (s : str) : str :=
  match s with
  | [] => []
  | c :: s' => if drop c then lstrip_by drop s' else s
  end.

Definition rstrip_by (drop : char -> bool) (s : str) : str :=
  rev (lstrip_by drop (rev s)).

(** [s.strip()] *)
Definition strip (s : str) : str := rstrip_by isspace (lstrip_by isspace s).

(** [s.rstrip(chars)] *)
Definition rstrip_chars (s chars : str) : str :=
  rstrip_by (fun c => existsb (char_eqb c) chars) s.

(** The first occurrence of [sep] in [s], as (text before, text after). *)
Fixpoint cut (sep s : str) : option (str * str) :=
  match strip_prefix sep s with
  | Some rest => Some ([], rest)
  | None =>
      match s with
      | [] => None
      | c :: s' =>
          match cut sep s' with
          | Some (a, b) => Some (c :: a, b)
          | None => None
          end
      end
  end.

(** [s.split(sep, 1)] for a non-empty [sep]. *)
Definition split1 (s sep : str) : list str :=
  match cut sep s with
  | Some (a, b) => [a; b]
  | None => [s]
  end.

(** [s.replace(old, new)]: every non-overlapping occurrence, left to right.
    [skip] counts the characters of a matched occurrence still to be dropped. *)
Fixpoint replace_from (old new : str) (skip : nat) (s : str) : str :=
  match s with
  | [] => []
  | c :: s' =>
      match skip with
      | S k => replace_from old new k s'
      | O =>
          if startswith s old
          then new ++ replace_from old new (List.length old - 1) s'
          else c :: replace_from old new 0 s'
      end
  end.

Definition replace (s old new : str) : str :=
  match old with
  | [] => new ++ flat_map (fun c => c :: new) s
  | _ :: _ => replace_from old new 0 s
  end.

Definition is_ascii (s : str) : bool := forallb (fun c => (c <? 0x80)%N) s.

Definition ascii_lower_char (c : char) : char :=
  if ((0x41 <=? c) && (c <=? 0x5A))%N then (c + 0x20)%N else c.

(** [s.lower()]. On an all-ASCII string CPython maps A-Z to a-z and nothing
    else; any other string goes through the interpreter's Unicode case
    mapping, [unicode_lower]. *)
Definition lower (unicode_lower : str -> str) (s : str) : str :=
  if is_ascii s then map ascii_lower_char s else unicode_lower s.

(** ** Exceptions and fallible calls *)

(** An exception instance. [is_Exception] tells whether its class derives
    from [Exception] (the classes an [except Exception] clause catches) or
    only from [BaseException]; [message] is [str(e)]. *)
Record exn := { is_Exception : bool; message : str }.

Inductive result (A : Type) : Type :=
| Ok (a : A)
| Raise (e : exn).
Arguments Ok {A} a.
Arguments Raise {A} e.

Definition bind {A B} (c : result A) (k : A -> result B) : result B :=
  match c with
  | Ok a => k a
  | Raise e => Raise e
  end.

(** [try: body  except Exception as e: handler e] *)
Definition try_except {A} (body : result A) (handler : exn -> result A) : result A :=
  match body with
  | Ok a => Ok a
  | Raise e => if is_Exception e then handler e else Raise e
  end.

(** ** Parsed JSON documents ([json.loads] / [Response.json()]) *)

Inductive json : Type :=
| JNone
| JBool (b : bool)
| JInt (z : Z)
| JFloat (f : spec_float)
| JStr (s : str)
| JList (l : list json)
| JDict (d : list (str * json)).

Definition type_name (v : json) : str :=
  lit match v with
      | JNone => "NoneType"
      | JBool _ => "bool"
      | JInt _ => "int"
      | JFloat _ => "float"
      | JStr _ => "str"
      | JList _ => "list"
      | JDict _ => "dict"
      end.

(** Truth value of an object, as [if v], [v and ...], [v or ...] test it. *)
Definition truthy (v : json) : bool :=
  match v with
  | JNone => false
  | JBool b => b
  | JInt z => negb (z =? 0)%Z
  | JFloat f => match f with S754_zero _ => false | _ => true end
  | JStr s => truthy_str s
  | JList l => match l with [] => false | _ => true end
  | JDict d => match d with [] => false | _ => true end
  end.

(** [AttributeError: 'T' object has no attribute 'name'] *)
Definition AttributeError (v : json) (name : string) : exn :=
  {| is_Exception := true;
     message := lit "'" ++ type_name v ++ lit "' object has no attribute '"
                ++ lit name ++ lit "'" |}.

Fixpoint dict_lookup (d : list (str * json)) (k : str) : option json :=
  match d with
  | [] => None
  | (k', v) :: d' => if str_eqb k' k then Some v else dict_lookup d' k
  end.

(** [v.get(key, default)]: only a dict has a [get] method. *)
Definition get (v : json) (key : str) (default : json) : result json :=
  match v with
  | JDict d => Ok (match dict_lookup d key with Some x => x | None => default end)
  | _ => Raise (AttributeError v "get")
  end.

(** [v[key]] on a dict that is known to answer [get]. *)
Definition getitem (v : json) (key : str) : result json :=
  match v with
  | JDict d =>
      match dict_lookup d key with
      | Some x => Ok x
      | None => Raise {| is_Exception := true; message := lit "'" ++ key ++ lit "'" |}
      end
  | _ => Raise {| is_Exception := true;
                  message := lit "'" ++ type_name v ++ lit "' object is not subscriptable" |}
  end.

(** [v.strip()]: only a string has a [strip] method. *)
Definition strip_method (v : json) : result str :=
  match v with
  | JStr s => Ok (strip s)
  | _ => Raise (AttributeError v "strip")
  end.

End Py.

Declare Scope py_scope.
Delimit Scope py_scope with py.
Notation "x <- c ;; k" := (Py.bind c (fun x => k))
  (at level 61, c at next level, right associativity) : py_scope.

(* ===================================================================== *)
(** * src/ai_reply_manager.py *)
(* ===================================================================== *)
Module AIReply.
Import Py.
Local Open Scope py_scope.

(** [AIMode = Literal["openai", "dify", "coze", "echo"]] *)
Inductive AIMode := openai | dify | coze | echo.

(** ** Config data classes *)

Module OpenAIConfig.
Record t := { base_url : str; api_key : str; model : str }.
Definition default : t := {| base_url := []; api_key := []; model := [] |}.
End OpenAIConfig.

Module DifyConfig.
Record t := {
  endpoint : str;
  api_key : str;
  user : str;
  inputs : json;
  response_mode : str }.
Definition default : t :=
  {| endpoint := []; api_key := []; user := lit "tiktok_live_user";
     inputs := JDict []; response_mode := lit "blocking" |}.
End DifyConfig.

Module CozeConfig.
Record t := {
  endpoint : str;
  api_key : str;
  bot_id : str;
  user_id : str;
  stream : bool }.
Definition default : t :=
  {| endpoint := lit "https://api.coze.com/open_api/v2/chat"; api_key := [];
     bot_id := []; user_id := lit "tiktok_live_user"; stream := false |}.
End CozeConfig.

(** ** The manager object *)

(** [time.time()]: a float that is stored with the line and never read. *)
Definition timestamp := spec_float.

Record AIReplyManager := {
  mode : AIMode;
  openai_cfg : OpenAIConfig.t;
  dify_cfg : DifyConfig.t;
  coze_cfg : CozeConfig.t;
  _enabled : bool;
  _keyword_mode : bool;
  _keywords : list str;
  _max_batch : Z;
  _custom_system_prompt : str;
  _comment_q : list (timestamp * str);   (* deque(maxlen=5000), oldest first *)
  _worker_active : bool }.

(** [deque(maxlen=5000)] *)
Definition maxlen : nat := 5000.

(** [AIReplyManager.__init__] *)
Definition init : AIReplyManager :=
  {| mode := echo;
     openai_cfg := OpenAIConfig.default;
     dify_cfg := DifyConfig.default;
     coze_cfg := CozeConfig.default;
     _enabled := false;
     _keyword_mode := false;
     _keywords := [];
     _max_batch := 1;
     _custom_system_prompt := [];
     _comment_q := [];
     _worker_active := false |}.

(** Attribute assignments. *)
Definition with_mode (v : AIMode) (s : AIReplyManager) :=
  {| mode := v; openai_cfg := openai_cfg s; dify_cfg := dify_cfg s;
     coze_cfg := coze_cfg s; _enabled := _enabled s;
     _keyword_mode := _keyword_mode s; _keywords := _keywords s;
     _max_batch := _max_batch s;
     _custom_system_prompt := _custom_system_prompt s;
     _comment_q := _comment_q s; _worker_active := _worker_active s |}.
Definition with_openai_cfg (v : OpenAIConfig.t) (s : AIReplyManager) :=
  {| mode := mode s; openai_cfg := v; dify_cfg := dify_cfg s;
     coze_cfg := coze_cfg s; _enabled := _enabled s;
     _keyword_mode := _keyword_mode s; _keywords := _keywords s;
     _max_batch := _max_batch s;
     _custom_system_prompt := _custom_system_prompt s;
     _comment_q := _comment_q s; _worker_active := _worker_active s |}.
Definition with_dify_cfg (v : DifyConfig.t) (s : AIReplyManager) :=
  {| mode := mode s; openai_cfg := openai_cfg s; dify_cfg := v;
     coze_cfg := coze_cfg s; _enabled := _enabled s;
     _keyword_mode := _keyword_mode s; _keywords := _keywords s;
     _max_batch := _max_batch s;
     _custom_system_prompt := _custom_system_prompt s;
     _comment_q := _comment_q s; _worker_active := _worker_active s |}.
Definition with_coze_cfg (v : CozeConfig.t) (s : AIReplyManager) :=
  {| mode := mode s; openai_cfg := openai_cfg s; dify_cfg := dify_cfg s;
     coze_cfg := v; _enabled := _enabled s;
     _keyword_mode := _keyword_mode s; _keywords := _keywords s;
     _max_batch := _max_batch s;
     _custom_system_prompt := _custom_system_prompt s;
     _comment_q := _comment_q s; _worker_active := _worker_active s |}.
Definition with_enabled (v : bool) (s : AIReplyManager) :=
  {| mode := mode s; openai_cfg := openai_cfg s; dify_cfg := dify_cfg s;
     coze_cfg := coze_cfg s; _enabled := v;
     _keyword_mode := _keyword_mode s; _keywords := _keywords s;
     _max_batch := _max_batch s;
     _custom_system_prompt := _custom_system_prompt s;
     _comment_q := _comment_q s; _worker_active := _worker_active s |}.
Definition with_keyword_mode (v : bool) (s : AIReplyManager) :=
  {| mode := mode s; openai_cfg := openai_cfg s; dify_cfg := dify_cfg s;
     coze_cfg := coze_cfg s; _enabled := _enabled s;
     _keyword_mode := v; _keywords := _keywords s;
     _max_batch := _max_batch s;
     _custom_system_prompt := _custom_system_prompt s;
     _comment_q := _comment_q s; _worker_active := _worker_active s |}.
Definition with_keywords (v : list str) (s : AIReplyManager) :=
  {| mode := mode s; openai_cfg := openai_cfg s; dify_cfg := dify_cfg s;
     coze_cfg := coze_cfg s; _enabled := _enabled s;
     _keyword_mode := _keyword_mode s; _keywords := v;
     _max_batch := _max_batch s;
     _custom_system_prompt := _custom_system_prompt s;
     _comment_q := _comment_q s; _worker_active := _worker_active s |}.
Definition with_max_batch (v : Z) (s : AIReplyManager) :=
  {| mode := mode s; openai_cfg := openai_cfg s; dify_cfg := dify_cfg s;
     coze_cfg := coze_cfg s; _enabled := _enabled s;
     _keyword_mode := _keyword_mode s; _keywords := _keywords s;
     _max_batch := v;
     _custom_system_prompt := _custom_system_prompt s;
     _comment_q := _comment_q s; _worker_active := _worker_active s |}.
Definition with_custom_system_prompt (v : str) (s : AIReplyManager) :=
  {| mode := mode s; openai_cfg := openai_cfg s; dify_cfg := dify_cfg s;
     coze_cfg := coze_cfg s; _enabled := _enabled s;
     _keyword_mode := _keyword_mode s; _keywords := _keywords s;
     _max_batch := _max_batch s;
     _custom_system_prompt := v;
     _comment_q := _comment_q s; _worker_active := _worker_active s |}.
Definition with_comment_q (v : list (timestamp * str)) (s : AIReplyManager) :=
  {| mode := mode s; openai_cfg := openai_cfg s; dify_cfg := dify_cfg s;
     coze_cfg := coze_cfg s; _enabled := _enabled s;
     _keyword_mode := _keyword_mode s; _keywords := _keywords s;
     _max_batch := _max_batch s;
     _custom_system_prompt := _custom_system_prompt s;
     _comment_q := v; _worker_active := _worker_active s |}.
Definition with_worker_active (v : bool) (s : AIReplyManager) :=
  {| mode := mode s; openai_cfg := openai_cfg s; dify_cfg := dify_cfg s;
     coze_cfg := coze_cfg s; _enabled := _enabled s;
     _keyword_mode := _keyword_mode s; _keywords := _keywords s;
     _max_batch := _max_batch s;
     _custom_system_prompt := _custom_system_prompt s;
     _comment_q := _comment_q s; _worker_active := v |}.

(** ** Configuration API *)

Definition set_mode (mode : str) (s : AIReplyManager) : AIReplyManager :=
  with_mode
    (if str_eqb mode (lit "openai") then openai
     else if str_eqb mode (lit "dify") then dify
     else if str_eqb mode (lit "coze") then coze
     else echo) s.

Definition config_openai (base_url api_key model : str) (s : AIReplyManager) :=
  with_openai_cfg
    {| OpenAIConfig.base_url := strip base_url;
       OpenAIConfig.api_key := strip api_key;
       OpenAIConfig.model := strip model |} s.

Definition config_dify (endpoint api_key user : str) (s : AIReplyManager) :=
  with_dify_cfg
    {| DifyConfig.endpoint := strip endpoint;
       DifyConfig.api_key := strip api_key;
       DifyConfig.user :=
         if truthy_str (strip user) then strip user else lit "tiktok_live_user";
       DifyConfig.inputs := JDict [];
       DifyConfig.response_mode := lit "blocking" |} s.

Definition config_coze (api_key bot_id user_id : str) (endpoint : option str)
    (s : AIReplyManager) :=
  let c := coze_cfg s in
  with_coze_cfg
    {| CozeConfig.endpoint :=
         match endpoint with
         | Some e => if truthy_str e then strip e else CozeConfig.endpoint c
         | None => CozeConfig.endpoint c
         end;
       CozeConfig.api_key := strip api_key;
       CozeConfig.bot_id := strip bot_id;
       CozeConfig.user_id :=
         if truthy_str (strip user_id) then strip user_id
         else lit "tiktok_live_user";
       CozeConfig.stream := CozeConfig.stream c |} s.

Definition set_enabled (enabled : bool) (s : AIReplyManager) :=
  with_enabled enabled s.

Definition set_keyword_mode (enabled : bool) (keywords : option (list str))
    (s : AIReplyManager) :=
  let s := with_keyword_mode enabled s in
  match keywords with
  | Some ks => with_keywords (map strip (filter (fun k => truthy_str (strip k)) ks)) s
  | None => s
  end.

Definition set_max_batch (n : Z) (s : AIReplyManager) :=
  with_max_batch (Z.max 1 n) s.

Definition set_custom_prompt (prompt : str) (s : AIReplyManager) :=
  with_custom_system_prompt (strip prompt) s.

Definition clear_pending_comments (s : AIReplyManager) := with_comment_q [] s.

(** ** Comment ingestion *)

(** [deque.append] on a deque bounded by [maxlen]: the item goes in on the
    right, and when that makes the deque longer than [maxlen] the leftmost
    item is dropped. *)
Definition deque_append {A} (maxlen : nat) (q : list A) (x : A) : list A :=
  let q' := q ++ [x] in
  if (maxlen <? List.length q')%nat then tl q' else q'.

(** [add_comment]; [ts] is what [time.time()] returned. *)
Definition add_comment (ts : timestamp) (comment_line : str)
    (s : AIReplyManager) : AIReplyManager :=
  if negb (truthy_str comment_line) || startswith comment_line (lit "[")
  then s
  else with_comment_q (deque_append maxlen (_comment_q s) (ts, comment_line)) s.

(** ** What the interpreter and the libraries supply *)

(** Fixed for the life of the process. *)
Record Runtime := {
  unicode_lower : str -> str;     (* case mapping of non-ASCII strings *)
  repr : json -> str;             (* [repr(data)], used by [{data!r}] *)
  OpenAI_imported : bool }.       (* [OpenAI is not None] *)

(** [client.chat.completions.create(model=, messages=, max_tokens=, temperature=)] *)
Record ChatRequest := {
  req_model : str;
  req_messages : list (str * str);   (* (role, content) *)
  req_max_tokens : Z;
  req_temperature : Q }.

(** A chat completion: [resp.choices[i].message.content], a string or None. *)
Definition ChatCompletion := list (option str).

(** An [httpx.Response]: what [raise_for_status()] and [json()] do on it. *)
Module Response.
Record t := { raise_for_status : result unit; json : result Py.json }.
End Response.

(** Signals of [AIReplyBridge]. *)
Inductive signal :=
| reply_signal (text : str)
| error_signal (text : str).

(** What the outside does during one worker run. Every call may raise.
    - [chat_completions_create base_url api_key request]: building the
      [OpenAI] client and calling [chat.completions.create] on it;
    - [http_post timeout url json headers]: opening [httpx.Client(timeout)],
      [cli.post(url, json=, headers=)], and leaving the [with] block;
    - [emit sig]: [bridge.<sig>.emit(text)]. *)
Record Env := {
  chat_completions_create : str -> str -> ChatRequest -> result ChatCompletion;
  http_post : Q -> str -> json -> list (str * str) -> result Response.t;
  emit : signal -> result unit }.

Section Manager.

Variable rt : Runtime.

(** ** Periodic cycle *)

Definition _accept_line (s : AIReplyManager) (line : str) : bool :=
  if negb (_keyword_mode s) then true
  else
    let lower := Py.lower (unicode_lower rt) line in
    existsb (fun k => contains lower (Py.lower (unicode_lower rt) k)) (_keywords s).

(** [_start_worker]: raises the flag and starts a thread running
    [_worker_run(comment_line)]; the started thread is returned to the
    scheduler as [Some comment_line]. *)
Definition _start_worker (comment_line : str) (s : AIReplyManager)
  : AIReplyManager * option str :=
  (with_worker_active true s, Some comment_line).

(** The [while] loop of [cycle]. [stack] is the deque seen from its right
    end (the next [pop()] is its head), [items] the accepted lines so far.
    Returns what is left of the deque, and [items]. *)
Fixpoint drain (s : AIReplyManager) (stack : list (timestamp * str))
    (items : list str) : list (timestamp * str) * list str :=
  match stack with
  | [] => ([], items)
  | (_ts, line) :: rest =>
      if (Z.of_nat (List.length items) <? _max_batch s)%Z
      then drain s rest (if _accept_line s line then items ++ [line] else items)
      else (stack, items)
  end.

Definition cycle (s : AIReplyManager) : AIReplyManager * option str :=
  if negb (_enabled s) then (s, None)
  else if _worker_active s then (s, None)
  else
    let '(stack, items) := drain s (rev (_comment_q s)) [] in
    let s := with_comment_q (rev stack) s in
    match items with
    | [] => (s, None)
    | comment_text :: _ => _start_worker comment_text s
    end.

(** ** Internal helpers *)

Definition _extract_comment_text (line : str) : str :=
  match split1 line (lit ":") with
  | [_; text] => strip text
  | _ => strip line
  end.

Definition default_system_prompt : str :=
  lit "你是一个直播间互动小助手。"
  ++ lit "请始终使用与观众评论相同的语言进行简短、自然、友好的回复；"
  ++ lit "不要翻译或切换到其它语言，除非观众明确要求你翻译或改用其它语言。"
  ++ lit "Reply in the same language as the viewer comment. "
  ++ lit "Do NOT translate or change language unless explicitly asked. "
  ++ lit "Keep replies to 1 concise sentence.".

Definition _build_prompts (s : AIReplyManager) (text : str) : str * str :=
  let system_prompt :=
    if truthy_str (_custom_system_prompt s) then _custom_system_prompt s
    else default_system_prompt in
  let user_prompt := lit "观众评论：" ++ text in
  (system_prompt, user_prompt).

(** ** Backend calls *)

Variable env : Env.

Definition _call_openai (s : AIReplyManager) (system_prompt user_prompt : str)
  : result str :=
  let cfg := openai_cfg s in
  if negb (truthy_str (OpenAIConfig.base_url cfg)
           && truthy_str (OpenAIConfig.api_key cfg)
           && truthy_str (OpenAIConfig.model cfg)
           && OpenAI_imported rt)
  then Ok (lit "AI(Echo): " ++ strip (replace user_prompt (lit "观众评论：") []))
  else
    try_except
      (resp <- chat_completions_create env
                 (OpenAIConfig.base_url cfg) (OpenAIConfig.api_key cfg)
                 {| req_model := OpenAIConfig.model cfg;
                    req_messages := [(lit "system", system_prompt);
                                     (lit "user", user_prompt)];
                    req_max_tokens := 200;
                    req_temperature := 0.7 |} ;;
       match resp with
       | [] => Raise {| is_Exception := true;
                        message := lit "list index out of range" |}
       | content :: _ =>
           match content with
           | Some text => Ok (strip text)
           | None => Raise (AttributeError JNone "strip")
           end
       end)
      (fun e => Ok (lit "[AI错误] OpenAI 调用失败: " ++ message e)).

Definition _call_dify_agent (s : AIReplyManager) (text : str) : result str :=
  let cfg := dify_cfg s in
  if negb (truthy_str (DifyConfig.endpoint cfg)
           && truthy_str (DifyConfig.api_key cfg))
  then Ok (lit "AI(Echo): " ++ text)
  else
    let url := rstrip_chars (DifyConfig.endpoint cfg) (lit "/")
               ++ lit "/chat-messages" in
    let headers :=
      [(lit "Authorization", lit "Bearer " ++ DifyConfig.api_key cfg);
       (lit "Content-Type", lit "application/json")] in
    let payload :=
      JDict [(lit "inputs", DifyConfig.inputs cfg);
             (lit "query", JStr text);
             (lit "response_mode", JStr (DifyConfig.response_mode cfg));
             (lit "user", JStr (DifyConfig.user cfg))] in
    try_except
      (r <- http_post env 30.0 url payload headers ;;
       _ <- Response.raise_for_status r ;;
       data <- Response.json r ;;
       top <- get data (lit "answer") JNone ;;
       answer <- (if truthy top then Ok top
                  else (inner <- get data (lit "data") (JDict []) ;;
                        get inner (lit "answer") JNone)) ;;
       if truthy answer then strip_method answer
       else Ok (lit "[AI警告] Dify 无可用 answer 字段: " ++ repr rt data))
      (fun e => Ok (lit "[AI错误] Dify 调用失败: " ++ message e)).

(** [c == "text"] for a JSON value [c]. *)
Definition eq_str (v : json) (s : str) : bool :=
  match v with JStr x => str_eqb x s | _ => false end.

(** The inner [for c in content] loop of [_call_coze_agent]: [Ok (Some t)]
    when the loop returns [t] from the function, [Ok None] when it runs out. *)
Fixpoint scan_blocks (content : list json) : result (option str) :=
  match content with
  | [] => Ok None
  | c :: rest =>
      ty <- get c (lit "type") JNone ;;
      hit <- (if eq_str ty (lit "text")
              then (t <- get c (lit "text") JNone ;; Ok (truthy t))
              else Ok false) ;;
      if (hit : bool)
      then (t <- getitem c (lit "text") ;;
            stripped <- strip_method t ;;
            Ok (Some stripped))
      else scan_blocks rest
  end.

(** The outer [for msg in reversed(messages)] loop; [msgs] is already
    reversed. *)
Fixpoint scan_messages (msgs : list json) : result (option str) :=
  match msgs with
  | [] => Ok None
  | msg :: rest =>
      content <- get msg (lit "content") JNone ;;
      match content with
      | JList blocks =>
          found <- scan_blocks blocks ;;
          match found with
          | Some t => Ok (Some t)
          | None => scan_messages rest
          end
      | JStr text =>
          if truthy_str (strip text) then Ok (Some (strip text))
          else scan_messages rest
      | _ => scan_messages rest
      end
  end.

Definition _call_coze_agent (s : AIReplyManager) (text : str) : result str :=
  let cfg := coze_cfg s in
  if negb (truthy_str (CozeConfig.api_key cfg)
           && truthy_str (CozeConfig.bot_id cfg))
  then Ok (lit "AI(Echo): " ++ text)
  else
    let url := CozeConfig.endpoint cfg in
    let headers :=
      [(lit "Authorization", lit "Bearer " ++ CozeConfig.api_key cfg);
       (lit "Content-Type", lit "application/json")] in
    let payload :=
      JDict [(lit "bot_id", JStr (CozeConfig.bot_id cfg));
             (lit "user_id", JStr (CozeConfig.user_id cfg));
             (lit "query", JStr text);
             (lit "stream", JBool (CozeConfig.stream cfg))] in
    try_except
      (r <- http_post env 30.0 url payload headers ;;
       _ <- Response.raise_for_status r ;;
       data <- Response.json r ;;
       inner <- get data (lit "data") (JDict []) ;;
       nested <- get inner (lit "messages") JNone ;;
       messages <- (if truthy nested then Ok nested
                    else get data (lit "messages") JNone) ;;
       found <- match messages with
                | JList ((_ :: _) as msgs) => scan_messages (rev msgs)
                | _ => Ok None
                end ;;
       match found with
       | Some t => Ok t
       | None => Ok (lit "[AI警告] Coze 无可用文本: " ++ repr rt data)
       end)
      (fun e => Ok (lit "[AI错误] Coze 调用失败: " ++ message e)).

(** ** Worker thread *)

(** Code running on the manager: it reads and assigns [self]'s attributes,
    emits signals, and returns or raises. *)
Definition M (A : Type) : Type :=
  AIReplyManager -> AIReplyManager * list signal * result A.

Definition M_bind {A B} (c : M A) (k : A -> M B) : M B :=
  fun s =>
    match c s with
    | (s1, out1, Ok a) =>
        let '(s2, out2, r) := k a s1 in (s2, out1 ++ out2, r)
    | (s1, out1, Raise e) => (s1, out1, Raise e)
    end.

Definition lift {A} (r : result A) : M A := fun s => (s, [], r).

Definition self : M AIReplyManager := fun s => (s, [], Ok s).

Definition assign (f : AIReplyManager -> AIReplyManager) : M unit :=
  fun s => (f s, [], Ok tt).

(** [self.bridge.<sig>.emit(text)]: the signal goes out unless [emit] raises. *)
Definition emit_signal (sig : signal) : M unit :=
  fun s =>
    match emit env sig with
    | Ok _ => (s, [sig], Ok tt)
    | Raise e => (s, [], Raise e)
    end.

(** [try: body  except Exception as e: handler e] *)
Definition M_try_except {A} (body : M A) (handler : exn -> M A) : M A :=
  fun s =>
    match body s with
    | (s1, out1, Raise e) =>
        if is_Exception e
        then let '(s2, out2, r) := handler e s1 in (s2, out1 ++ out2, r)
        else (s1, out1, Raise e)
    | done => done
    end.

(** [try: body  finally: cleanup]: [cleanup] runs however [body] ends; the
    outcome is [body]'s unless [cleanup] itself raises. *)
Definition M_try_finally {A} (body : M A) (cleanup : M unit) : M A :=
  fun s =>
    let '(s1, out1, r) := body s in
    match cleanup s1 with
    | (s2, out2, Ok _) => (s2, out1 ++ out2, r)
    | (s2, out2, Raise e) => (s2, out1 ++ out2, Raise e)
    end.

Notation "x <-- c ;; k" := (M_bind c (fun x => k))
  (at level 61, c at next level, right associativity).

(** The reply computed by the [try] block of [_worker_run], up to and
    including the placeholder for an empty reply. *)
Definition _worker_reply (s : AIReplyManager) (comment_line : str) : result str :=
  let text := _extract_comment_text comment_line in
  let '(system_prompt, user_prompt) := _build_prompts s text in
  reply <- match mode s with
           | openai => _call_openai s system_prompt user_prompt
           | dify => _call_dify_agent s text
           | coze => _call_coze_agent s text
           | echo => Ok (lit "AI(Echo): " ++ text)
           end ;;
  Ok (if negb (truthy_str reply) then lit "[AI] （无回复）" else reply).

Definition _worker_run (comment_line : str) : M unit :=
  M_try_finally
    (M_try_except
       (s <-- self ;;
        reply <-- lift (_worker_reply s comment_line) ;;
        emit_signal (reply_signal reply))
       (fun e => emit_signal (error_signal (lit "AI 回复失败: " ++ message e))))
    (assign (with_worker_active false)).

End Manager.

(** ** The manager with its worker threads *)

(** The UI thread calls the manager's methods one after the other; worker
    threads started by [cycle] run in between. [workers] holds the threads
    that were started and have not finished, each with its argument. A
    worker's run is one step of the system: the only attribute it writes is
    the flag, in its [finally] clause, which is the last thing it does. *)
Record System := {
  mgr : AIReplyManager;
  workers : list str;
  emitted : list signal }.

Definition boot : System := {| mgr := init; workers := []; emitted := [] |}.

Inductive event :=
| call_set_mode (mode : str)
| call_config_openai (base_url api_key model : str)
| call_config_dify (endpoint api_key user : str)
| call_config_coze (api_key bot_id user_id : str) (endpoint : option str)
| call_set_enabled (enabled : bool)
| call_set_keyword_mode (enabled : bool) (keywords : option (list str))
| call_set_max_batch (n : Z)
| call_set_custom_prompt (prompt : str)
| call_clear_pending_comments
| call_add_comment (now : timestamp) (comment_line : str)
| call_cycle
| worker_finishes (i : nat) (env : Env).   (* thread [i] runs [_worker_run] *)

Definition on_mgr (f : AIReplyManager -> AIReplyManager) (sys : System) : System :=
  {| mgr := f (mgr sys); workers := workers sys; emitted := emitted sys |}.

(** The list without its [i]-th element. *)
Fixpoint remove_nth {A} (i : nat) (l : list A) : list A :=
  match l, i with
  | [], _ => []
  | _ :: l', O => l'
  | x :: l', S i' => x :: remove_nth i' l'
  end.

Definition step (rt : Runtime) (ev : event) (sys : System) : System :=
  match ev with
  | call_set_mode m => on_mgr (set_mode m) sys
  | call_config_openai b k m => on_mgr (config_openai b k m) sys
  | call_config_dify e k u => on_mgr (config_dify e k u) sys
  | call_config_coze k b u e => on_mgr (config_coze k b u e) sys
  | call_set_enabled b => on_mgr (set_enabled b) sys
  | call_set_keyword_mode b ks => on_mgr (set_keyword_mode b ks) sys
  | call_set_max_batch n => on_mgr (set_max_batch n) sys
  | call_set_custom_prompt p => on_mgr (set_custom_prompt p) sys
  | call_clear_pending_comments => on_mgr clear_pending_comments sys
  | call_add_comment now line => on_mgr (add_comment now line) sys
  | call_cycle =>
      let '(m, started) := cycle rt (mgr sys) in
      {| mgr := m;
         workers := workers sys ++ match started with
                                   | Some line => [line]
                                   | None => []
                                   end;
         emitted := emitted sys |}
  | worker_finishes i env =>
      match nth_error (workers sys) i with
      | None => sys
      | Some line =>
          let '(m, out, _) := _worker_run rt env line (mgr sys) in
          {| mgr := m;
             workers := remove_nth i (workers sys);
             emitted := emitted sys ++ out |}
      end
  end.

(** The system after the events of [evs], in order. *)
Definition run (rt : Runtime) (evs : list event) (sys : System) : System :=
  fold_left (fun sys ev => step rt ev sys) evs sys.

(** ** Predicates used to state the properties *)

(** The keyword filter turns the queue entry down. *)
Definition rejected (rt : Runtime) (s : AIReplyManager)
    (entry : timestamp * str) : bool :=
  negb (_accept_line rt s (snd entry)).

(** A keyword that [set_keyword_mode] drops: blank once stripped. *)
Definition blank (k : str) : bool := negb (truthy_str (strip k)).

(** The call returns, or raises an exception whose class derives from
    [Exception]. *)
Definition fails_with_Exception {A} (r : result A) : Prop :=
  match r with
  | Ok _ => True
  | Raise e => is_Exception e = true
  end.

(** The failures of the OpenAI SDK and of httpx (connection, timeout, HTTP
    status, JSON decoding, ...) are exceptions deriving from [Exception]. *)
Definition library_failures (env : Env) : Prop :=
  (forall base_url api_key req,
     fails_with_Exception (chat_completions_create env base_url api_key req))
  /\ (forall timeout url payload headers,
        match http_post env timeout url payload headers with
        | Raise e => is_Exception e = true
        | Ok r => fails_with_Exception (Response.raise_for_status r)
                  /\ fails_with_Exception (Response.json r)
        end).

(** What holds of the system whatever the UI thread and the workers do:
    the deque is within its bound, the batch size is at least one, and the
    flag is up exactly while one started worker has not finished. *)
Record Inv (sys : System) : Prop := {
  inv_queue : (List.length (_comment_q (mgr sys)) <= maxlen)%nat;
  inv_batch : (1 <= _max_batch (mgr sys))%Z;
  inv_workers :
    List.length (workers sys) = if _worker_active (mgr sys) then 1%nat else 0%nat }.

(** ** Further code of the manager, and what its properties are stated with *)

(** A CJK unified ideograph, as [_detect_lang]'s scan tests it. *)
Definition is_cjk (ch : char) : bool := ((0x4E00 <=? ch) && (ch <=? 0x9FFF))%N.

(** [_detect_lang]. [detect] is [langdetect.detect], or [None] when the
    import failed. *)
Definition _detect_lang (detect : option (str -> result str)) (text : str)
  : result str :=
  let scan := if existsb is_cjk text then lit "zh" else lit "en" in
  match detect with
  | Some detect =>
      try_except
        (code <- detect text ;;
         Ok (if startswith code (lit "zh") then lit "zh" else lit "en"))
        (fun _ => Ok scan)
  | None => Ok scan
  end.

(** The lines [add_comment] lets in. *)
Definition admitted (line : str) : bool :=
  truthy_str line && negb (startswith line (lit "[")).

(** A run of [add_comment] calls, each with the clock's value and the line. *)
Definition add_comments (calls : list (timestamp * str)) (s : AIReplyManager)
  : AIReplyManager :=
  fold_left (fun s call => add_comment (fst call) (snd call) s) calls s.

(** The last [n] elements of a list. *)
Definition lastn {A} (n : nat) (l : list A) : list A :=
  skipn (List.length l - n) l.

(** Timer ticks and worker runs: the events that bring no new comment and
    change no setting. *)
Definition tick_or_worker (ev : event) : bool :=
  match ev with
  | call_cycle | worker_finishes _ _ => true
  | _ => false
  end.

(** The HTTP peer answers every request with status 2xx and the JSON
    document [data]. *)
Definition peer_answers (env : Env) (data : json) : Prop :=
  forall timeout url payload headers,
  exists r, http_post env timeout url payload headers = Ok r
            /\ Response.raise_for_status r = Ok tt
            /\ Response.json r = Ok data.

(** [cfg] with its endpoint replaced. *)
Definition dify_at (endpoint : str) (cfg : DifyConfig.t) : DifyConfig.t :=
  {| DifyConfig.endpoint := endpoint;
     DifyConfig.api_key := DifyConfig.api_key cfg;
     DifyConfig.user := DifyConfig.user cfg;
     DifyConfig.inputs := DifyConfig.inputs cfg;
     DifyConfig.response_mode := DifyConfig.response_mode cfg |}.

(** The bridge delivers every signal. *)
Definition bridge_delivers (env : Env) : Prop := forall sig, emit env sig = Ok tt.

End AIReply.

(* ===================================================================== *)
(** * src/tiktok_monitor.py: the public control API's [stop] *)
(* ===================================================================== *)
Module TikTok.
Import Py.

(** What a call does besides changing the fetcher's attributes. *)
Inductive effect :=
| log_error (msg : str)
| log_info (msg : str)
| call_error_callback (msg : str)
| call_comment_callback (msg : str)
| schedule_disconnect (loop : nat) (grace : Q)  (* run_coroutine_threadsafe *)
| probe_future (timeout : Q)                    (* fut.result(timeout=0.1) *)
| join_thread (thread : nat) (timeout : Q).     (* self._thread.join(timeout) *)

(** Threads and event loops are named by numbers. A callback is the
    outcome it has on each message. *)
Record TikTokCommentFetcher := {
  unique_id : str;
  comment_callback : option (str -> result unit);
  error_callback : option (str -> result unit);
  _thread : option nat;
  _loop : option nat;
  _running : bool;
  _disconnect_grace : Q }.

Definition with_running (v : bool) (f : TikTokCommentFetcher) :=
  {| unique_id := unique_id f; comment_callback := comment_callback f;
     error_callback := error_callback f; _thread := _thread f;
     _loop := _loop f; _running := v;
     _disconnect_grace := _disconnect_grace f |}.

(** Effects so far, and how the code ended. *)
Definition T (A : Type) : Type := list effect * result A.

Definition T_bind {A B} (c : T A) (k : A -> T B) : T B :=
  match c with
  | (out1, Ok a) => let '(out2, r) := k a in (out1 ++ out2, r)
  | (out1, Raise e) => (out1, Raise e)
  end.

Definition T_try_except {A} (body : T A) (handler : exn -> T A) : T A :=
  match body with
  | (out1, Raise e) =>
      if is_Exception e
      then let '(out2, r) := handler e in (out1 ++ out2, r)
      else (out1, Raise e)
  | done => done
  end.

Definition _emit_error (f : TikTokCommentFetcher) (msg : str) : T unit :=
  T_bind ([log_error msg], Ok tt) (fun _ =>
  match error_callback f with
  | Some cb => ([call_error_callback msg], cb msg)
  | None =>
      match comment_callback f with
      | Some cb =>
          let line := lit "[⚠️] " ++ msg in
          ([call_comment_callback line], cb line)
      | None => ([], Ok tt)
      end
  end).

Definition _emit_info (f : TikTokCommentFetcher) (msg : str) : T unit :=
  T_bind ([log_info msg], Ok tt) (fun _ =>
  match comment_callback f with
  | Some cb =>
      let line := lit "[系统] " ++ msg in
      ([call_comment_callback line], cb line)
  | None => ([], Ok tt)
  end).

(** How [fut.result(timeout=0.1)] ends. *)
Inductive probe :=
| probe_done
| probe_TimeoutError                 (* concurrent.futures.TimeoutError *)
| probe_raises (e : exn).

(** What the threading and asyncio calls of [stop] do. *)
Record Outside := {
  run_coroutine_threadsafe : result unit;
  fut_result : probe;
  join : result unit;
  repr_exn : exn -> str }.           (* [{e!r}] *)

(** [stop(timeout)]: the fetcher afterwards, the effects, and the outcome. *)
Definition stop (o : Outside) (timeout : Q) (f : TikTokCommentFetcher)
  : TikTokCommentFetcher * T unit :=
  if negb (_running f)
  then (f, _emit_error f (lit "未连接或已停止"))
  else
    let scheduled : T unit :=
      match _loop f with
      | Some loop =>
          T_try_except
            (T_bind ([schedule_disconnect loop (_disconnect_grace f)],
                     run_coroutine_threadsafe o) (fun _ =>
               ([probe_future 0.1],
                match fut_result o with
                | probe_done => Ok tt
                | probe_TimeoutError => Ok tt
                | probe_raises e => Raise e
                end)))
            (fun e => _emit_error f (lit "停止监听调度失败: " ++ repr_exn o e))
      | None => ([], Ok tt)
      end in
    let joined : T unit :=
      T_bind scheduled (fun _ =>
        match _thread f with
        | Some t => ([join_thread t timeout], join o)
        | None => ([], Ok tt)
        end) in
    match joined with
    | (out, Ok _) =>
        let f' := with_running false f in
        let '(out2, r) := _emit_info f' (lit "已停止监听") in
        (f', (out ++ out2, r))
    | (out, Raise e) => (f, (out, Raise e))
    end.

(** Effects that touch the loop or the thread. *)
Definition touches_connection (e : effect) : bool :=
  match e with
  | schedule_disconnect _ _ | probe_future _ | join_thread _ _ => true
  | _ => false
  end.

(** ** Further code of the fetcher *)

Definition with_thread (v : option nat) (f : TikTokCommentFetcher) :=
  {| unique_id := unique_id f; comment_callback := comment_callback f;
     error_callback := error_callback f; _thread := v;
     _loop := _loop f; _running := _running f;
     _disconnect_grace := _disconnect_grace f |}.

Definition with_loop (v : option nat) (f : TikTokCommentFetcher) :=
  {| unique_id := unique_id f; comment_callback := comment_callback f;
     error_callback := error_callback f; _thread := _thread f;
     _loop := v; _running := _running f;
     _disconnect_grace := _disconnect_grace f |}.

(** [_normalize_unique_id] *)
Definition _normalize_unique_id (uid : str) : str :=
  let u := strip uid in
  if startswith u (lit "@") then tl u else u.

(** The attributes of a [CommentEvent] that [_on_comment] reads; each may
    be None. *)
Record CommentEvent := {
  user_nickname : option str;     (* event.user.nickname *)
  user_unique_id : option str;    (* event.user.unique_id *)
  comment : option str }.         (* event.comment *)

(** [a or b] for a string-or-None [a]. *)
Definition or_else (a : option str) (b : str) : str :=
  match a with
  | Some ((_ :: _) as s) => s
  | _ => b
  end.

(** The [username], [text] and [message] that [_on_comment] builds. *)
Definition comment_username (event : CommentEvent) : str :=
  or_else (user_nickname event) (or_else (user_unique_id event) (lit "?")).

Definition comment_text (event : CommentEvent) : str :=
  or_else (comment event) [].

Definition comment_message (event : CommentEvent) : str :=
  comment_username event ++ lit ": " ++ comment_text event.

(** [_on_comment] *)
Definition _on_comment (f : TikTokCommentFetcher) (event : CommentEvent) : T unit :=
  T_try_except
    (let message := comment_message event in
     match comment_callback f with
     | Some cb => ([call_comment_callback message], cb message)
     | None => ([], Ok tt)
     end)
    (fun e => _emit_error f (lit "处理评论出错: " ++ message e)).

(** [is_running] *)
Definition is_running (f : TikTokCommentFetcher) : bool := _running f.

(** [start]. [thread] names the thread object that is created and
    [thread_start] is what its [start()] does. Returns the fetcher, the
    effects and outcome, and the thread now running [_run_loop], if any. *)
Definition start (thread : nat) (thread_start : result unit)
    (f : TikTokCommentFetcher) : TikTokCommentFetcher * T unit * option nat :=
  if _running f
  then (f, _emit_error f (lit "监听已在运行"), None)
  else
    let f' := with_thread (Some thread) (with_running true f) in
    match thread_start with
    | Ok _ => (f', ([], Ok tt), Some thread)
    | Raise e => (f', ([], Raise e), None)
    end.

(** What the asyncio calls of [_run_loop] do:
    - [new_event_loop]: [asyncio.new_event_loop()], naming the loop;
    - [is_live]: [loop.run_until_complete(self.client.is_live())];
    - [connect]: [loop.run_until_complete(self.client.connect(...))];
    - [cancel_pending]: the [try] block of the cleanup (cancelling and
      gathering the pending tasks);
    - [close]: [loop.close()]. *)
Record LoopOutside := {
  new_event_loop : result nat;
  is_live : result bool;
  connect : result unit;
  cancel_pending : result unit;
  close : result unit }.

(** What the loop thread does, besides reporting. *)
Inductive loop_effect :=
| reported (e : effect)
| queried_is_live
| connecting
| loop_closed.

Definition L (A : Type) : Type := list loop_effect * result A.

Definition L_bind {A B} (c : L A) (k : A -> L B) : L B :=
  match c with
  | (out1, Ok a) => let '(out2, r) := k a in (out1 ++ out2, r)
  | (out1, Raise e) => (out1, Raise e)
  end.

Definition L_try_except {A} (body : L A) (handler : exn -> L A) : L A :=
  match body with
  | (out1, Raise e) =>
      if is_Exception e
      then let '(out2, r) := handler e in (out1 ++ out2, r)
      else (out1, Raise e)
  | done => done
  end.

Definition report {A} (c : T A) : L A := (map reported (fst c), snd c).

(** [_run_loop]. The inner [return]s are the [None] and [Some false] cases:
    nothing more of the [try] block runs, and the [finally] clause does. *)
Definition _run_loop (o : LoopOutside) (f : TikTokCommentFetcher)
  : TikTokCommentFetcher * L unit :=
  match new_event_loop o with
  | Raise e => (f, ([], Raise e))
  | Ok loop =>
      let f := with_loop (Some loop) f in
      let '(out, r) :=
        L_try_except
          (L_bind
             (L_try_except
                (L_bind ([queried_is_live], is_live o) (fun live => ([], Ok (Some live))))
                (fun e =>
                   L_bind (report (_emit_error f (lit "检测直播状态失败: " ++ message e)))
                     (fun _ => ([], Ok None))))
             (fun live =>
                match live with
                | None => ([], Ok tt)
                | Some false => report (_emit_error f (lit "主播当前未开播或用户名无效"))
                | Some true => ([connecting], connect o)
                end))
          (fun _ =>
             L_bind ([reported (log_error (lit "启动监听失败"))], Ok tt) (fun _ =>
               report (_emit_error f (lit "启动监听失败")))) in
      match try_except (cancel_pending o) (fun _ => Ok tt) with
      | Raise e => (f, (out, Raise e))
      | Ok _ =>
          match close o with
          | Raise e => (f, (out, Raise e))
          | Ok _ => (with_running false f, (out ++ [loop_closed], r))
          end
      end
  end.

(** Both callbacks, when wired, return on every message. *)
Definition callbacks_return (f : TikTokCommentFetcher) : Prop :=
  (forall cb msg, comment_callback f = Some cb -> cb msg = Ok tt)
  /\ (forall cb msg, error_callback f = Some cb -> cb msg = Ok tt).


End TikTok.

(* ===================================================================== *)
(** * Concrete inputs *)
(* ===================================================================== *)
Module Sample.
Import Py AIReply.

Definition rt : Runtime :=
  {| unicode_lower := fun s => s;
     repr := fun _ => lit "{...}";
     OpenAI_imported := true |}.

Definition t1 : timestamp := S754_finite false 1 0.
Definition t2 : timestamp := S754_finite false 2 0.

Definition ConnectError : exn :=
  {| is_Exception := true; message := lit "All connection attempts failed" |}.

(** No network; the signals go out. *)
Definition offline : Env :=
  {| chat_completions_create := fun _ _ _ => Raise ConnectError;
     http_post := fun _ _ _ _ => Raise ConnectError;
     emit := fun _ => Ok tt |}.

(** The manager of the keyword example: filter ["hello"], batch size 1,
    two queued lines. *)
Definition hello_filter : AIReplyManager :=
  with_comment_q [(t1, lit "a: hi"); (t2, lit "b: hello there")]
    (set_keyword_mode true (Some [lit "hello"]) (set_enabled true init)).

(** A filter that matches nothing in the queue. *)
Definition no_match : AIReplyManager :=
  with_comment_q [(t1, lit "a: hi")]
    (set_keyword_mode true (Some [lit "hello"]) (set_enabled true init)).

(** The bridge is gone: every [emit] raises. *)
Definition bridge_deleted : Env :=
  {| chat_completions_create := fun _ _ _ => Raise ConnectError;
     http_post := fun _ _ _ _ => Raise ConnectError;
     emit := fun _ =>
       Raise {| is_Exception := true;
                message := lit "wrapped C/C++ object has been deleted" |} |}.

(** All three network backends configured. *)
Definition configured : AIReplyManager :=
  config_openai (lit "https://api.example/v1") (lit "sk-key") (lit "gpt")
    (config_dify (lit "https://dify.example/v1/") (lit "key") (lit "")
       (config_coze (lit "key") (lit "bot") (lit "") None init)).

(** The peer answers 200 with the JSON document [body]; the SDK's one
    choice has no content. *)
Definition answers (body : json) : Env :=
  {| chat_completions_create := fun _ _ _ => Ok [None];
     http_post := fun _ _ _ _ =>
       Ok {| Response.raise_for_status := Ok tt; Response.json := Ok body |};
     emit := fun _ => Ok tt |}.

(** A dispatch is in flight: one line was queued and a cycle started a
    worker for it. *)
Definition in_flight : System :=
  run rt [call_set_enabled true; call_add_comment t1 (lit "a: hi"); call_cycle;
          call_add_comment t2 (lit "b: hello there")] boot.

(** Triggers overlapping two worker runs. *)
Definition busy_session : list event :=
  [call_set_enabled true;
   call_add_comment t1 (lit "a: hi"); call_add_comment t2 (lit "b: hello there");
   call_cycle; call_cycle; worker_finishes 0 offline; call_cycle; call_cycle].

(** The keyword example with the two lines queued the other way round. *)
Definition hello_filter_swapped : AIReplyManager :=
  with_comment_q [(t1, lit "b: hello there"); (t2, lit "a: hi")] hello_filter.

(** A session that ends with an enabled engine, filter ["hello"], and one
    queued line that does not match. *)
Definition no_match_session : list event :=
  [call_set_enabled true; call_set_keyword_mode true (Some [lit "hello"]);
   call_add_comment t1 (lit "a: hi")].

(** Lines arrive, keyword mode is switched on with blank keywords only,
    more lines arrive around a cycle. *)
Definition blank_keywords : list str := [lit "  "; []; [0x09; 0x3000]%N].
Definition blank_session : list event :=
  [call_set_enabled true; call_add_comment t1 (lit "a: hi");
   call_set_keyword_mode true (Some blank_keywords);
   call_add_comment t2 (lit "b: hello there"); call_cycle;
   call_add_comment t2 (lit "c: hello")].

(** OpenAI mode, endpoint and model set, no API key. *)
Definition openai_no_key : AIReplyManager :=
  set_mode (lit "openai")
    (config_openai (lit "https://api.example/v1") (lit "  ") (lit "gpt") init).

(** 5000 accepted lines, one call each. *)
Definition fill : list event :=
  repeat (call_add_comment t1 (lit "a: hi")) 5000.

(** A fetcher that was never started, with an error callback wired. *)
Definition idle_fetcher : TikTok.TikTokCommentFetcher :=
  {| TikTok.unique_id := lit "streamer";
     TikTok.comment_callback := Some (fun _ => Ok tt);
     TikTok.error_callback := Some (fun _ => Ok tt);
     TikTok._thread := None;
     TikTok._loop := None;
     TikTok._running := false;
     TikTok._disconnect_grace := 5.0 |}.

(** A fetcher whose thread 1 runs loop 1. *)
Definition live_fetcher : TikTok.TikTokCommentFetcher :=
  {| TikTok.unique_id := lit "streamer";
     TikTok.comment_callback := Some (fun _ => Ok tt);
     TikTok.error_callback := Some (fun _ => Ok tt);
     TikTok._thread := Some 1%nat;
     TikTok._loop := Some 1%nat;
     TikTok._running := true;
     TikTok._disconnect_grace := 5.0 |}.

(** The disconnect is scheduled, the probe times out, the join returns. *)
Definition cooperative : TikTok.Outside :=
  {| TikTok.run_coroutine_threadsafe := Ok tt;
     TikTok.fut_result := TikTok.probe_TimeoutError;
     TikTok.join := Ok tt;
     TikTok.repr_exn := fun e => message e |}.

(** The streamer is not live; the loop closes cleanly. *)
Definition not_live : TikTok.LoopOutside :=
  {| TikTok.new_event_loop := Ok 7%nat;
     TikTok.is_live := Ok false;
     TikTok.connect := Ok tt;
     TikTok.cancel_pending := Ok tt;
     TikTok.close := Ok tt |}.

(** The streamer is live and the connection breaks. *)
Definition connection_lost : TikTok.LoopOutside :=
  {| TikTok.new_event_loop := Ok 7%nat;
     TikTok.is_live := Ok true;
     TikTok.connect := Raise ConnectError;
     TikTok.cancel_pending := Ok tt;
     TikTok.close := Ok tt |}.

(** Keyword mode set with a padded keyword and a blank one. *)
Definition padded_keywords : list event :=
  [call_set_keyword_mode true (Some [lit " hello "; lit "  "])].

End Sample.

(* ===================================================================== *)
(** * Properties *)
(* ===================================================================== *)

Import Py AIReply.

(** ** Strings *)

(** The literal decoder on the prompt prefix used by [_build_prompts]. *)
Example lit_viewer_comment :
  Py.lit "观众评论：" = [0x89C2; 0x4F17; 0x8BC4; 0x8BBA; 0xFF1A]%N.
Proof. reflexivity. Qed.

Example strip_example : Py.strip (Py.lit "  nice stream ") = Py.lit "nice stream".
Proof. reflexivity. Qed.

Example split1_example :
  Py.split1 (Py.lit "alice: nice: stream") (Py.lit ":")
  = [Py.lit "alice"; Py.lit " nice: stream"].
Proof. reflexivity. Qed.

Example replace_example :
  Py.replace (Py.lit "aXXbXXXc") (Py.lit "XX") (Py.lit "-") = Py.lit "a-b-Xc".
Proof. reflexivity. Qed.

Example extract_comment_text_example :
  _extract_comment_text (lit "alice: nice stream") = lit "nice stream".
Proof. reflexivity. Qed.

Example extract_comment_text_no_colon :
  _extract_comment_text (lit "  hello  ") = lit "hello".
Proof. reflexivity. Qed.

(** ** Bounded deque *)

Lemma deque_append_length {A} (n : nat) (q : list A) (x : A) :
  (List.length q <= n -> List.length (deque_append n q x) <= n)%nat.
Proof.
  intros Hq. unfold deque_append.
  destruct (Nat.ltb_spec n (List.length (q ++ [x]))) as [Hfull | Hroom].
  - destruct q as [| y q']; simpl in *.
    + lia.
    + rewrite length_app in *. simpl in *. lia.
  - exact Hroom.
Qed.

Lemma deque_append_full {A} (n : nat) (q : list A) (x : A) :
  (0 < n)%nat -> List.length q = n -> deque_append n q x = tl q ++ [x].
Proof.
  intros Hn Hq. unfold deque_append.
  destruct (Nat.ltb_spec n (List.length (q ++ [x]))) as [_ | Hroom].
  - destruct q; [simpl in Hq; lia | reflexivity].
  - rewrite length_app in Hroom. simpl in Hroom. lia.
Qed.

Lemma deque_append_room {A} (n : nat) (q : list A) (x : A) :
  (List.length q < n)%nat -> deque_append n q x = q ++ [x].
Proof.
  intros Hq. unfold deque_append.
  destruct (Nat.ltb_spec n (List.length (q ++ [x]))) as [Hfull | _].
  - rewrite length_app in Hfull. simpl in Hfull. lia.
  - reflexivity.
Qed.

Lemma add_comment_accepted now line s :
  truthy_str line = true -> startswith line (lit "[") = false ->
  add_comment now line s
  = with_comment_q (deque_append maxlen (_comment_q s) (now, line)) s.
Proof. intros H1 H2. unfold add_comment. rewrite H1, H2. reflexivity. Qed.

Lemma add_comment_length now line s :
  (List.length (_comment_q s) <= maxlen ->
   List.length (_comment_q (add_comment now line s)) <= maxlen)%nat.
Proof.
  intros Hq. unfold add_comment.
  destruct (negb (truthy_str line) || startswith line (lit "[")).
  - exact Hq.
  - simpl. apply deque_append_length, Hq.
Qed.

(** ** The drain loop of [cycle] *)

Lemma drain_length rt s stack items :
  (List.length (fst (drain rt s stack items)) <= List.length stack)%nat.
Proof.
  revert items. induction stack as [| [ts line] rest IH]; intros items; simpl.
  - lia.
  - destruct (Z.of_nat (List.length items) <? _max_batch s)%Z; simpl.
    + specialize (IH (if _accept_line rt s line then items ++ [line] else items)).
      lia.
    + lia.
Qed.

(** Accepted lines are only ever added. *)
Lemma drain_keeps_items rt s stack items :
  items <> [] -> snd (drain rt s stack items) <> [].
Proof.
  revert items. induction stack as [| [ts line] rest IH]; intros items Hne; simpl.
  - exact Hne.
  - destruct (Z.of_nat (List.length items) <? _max_batch s)%Z; simpl.
    + apply IH. destruct (_accept_line rt s line); [| exact Hne].
      destruct items; discriminate.
    + exact Hne.
Qed.

(** With a batch size of at least one, the loop ends with nothing accepted
    exactly when it has popped, and rejected, every entry. *)
Lemma drain_nothing_accepted rt s stack :
  (1 <= _max_batch s)%Z ->
  snd (drain rt s stack []) = [] ->
  fst (drain rt s stack []) = [] /\ forallb (rejected rt s) stack = true.
Proof.
  intros Hb. induction stack as [| [ts line] rest IH]; simpl; intros Hnone.
  - split; reflexivity.
  - destruct (Z.ltb_spec 0 (_max_batch s)) as [_ | Hbad]; [| lia].
    unfold rejected at 1. simpl.
    destruct (_accept_line rt s line) eqn:Hacc; simpl in *.
    + exfalso. revert Hnone. apply drain_keeps_items. discriminate.
    + apply IH, Hnone.
Qed.

Lemma drain_all_rejected rt s stack :
  (1 <= _max_batch s)%Z ->
  forallb (rejected rt s) stack = true ->
  drain rt s stack [] = ([], []).
Proof.
  intros Hb. induction stack as [| [ts line] rest IH]; simpl; intros Hrej.
  - reflexivity.
  - destruct (Z.ltb_spec 0 (_max_batch s)) as [_ | Hbad]; [| lia].
    apply andb_true_iff in Hrej as [Hline Hrest].
    unfold rejected in Hline. simpl in Hline.
    apply negb_true_iff in Hline. rewrite Hline. apply IH, Hrest.
Qed.

(** ** What [cycle] and [_worker_run] do to the manager *)

Lemma cycle_guard rt s :
  _enabled s = false \/ _worker_active s = true -> cycle rt s = (s, None).
Proof.
  intros [H | H]; unfold cycle; rewrite H; simpl.
  - reflexivity.
  - destruct (_enabled s); reflexivity.
Qed.

(** [cycle] either starts nothing and leaves the flag as it was, or it found
    the flag down, raised it and started one thread. *)
Lemma cycle_flag rt s :
  (snd (cycle rt s) = None /\ _worker_active (fst (cycle rt s)) = _worker_active s)
  \/ (exists line, snd (cycle rt s) = Some line
                   /\ _worker_active s = false
                   /\ _worker_active (fst (cycle rt s)) = true).
Proof.
  unfold cycle.
  destruct (_enabled s); simpl; [| left; split; reflexivity].
  destruct (_worker_active s) eqn:Hflag; simpl; [left; split; [reflexivity | assumption] |].
  destruct (drain rt s (rev (_comment_q s)) []) as [stack items].
  destruct items as [| line rest]; simpl.
  - left. split; [reflexivity | assumption].
  - right. exists line. repeat split.
Qed.

Lemma cycle_queue_length rt s :
  (List.length (_comment_q (fst (cycle rt s))) <= List.length (_comment_q s))%nat.
Proof.
  unfold cycle.
  destruct (_enabled s); simpl; [| lia].
  destruct (_worker_active s); simpl; [lia |].
  pose proof (drain_length rt s (rev (_comment_q s)) []) as Hlen.
  destruct (drain rt s (rev (_comment_q s)) []) as [stack items].
  simpl in Hlen. rewrite length_rev in Hlen.
  destruct items; simpl; rewrite length_rev; exact Hlen.
Qed.

Lemma cycle_max_batch rt s : _max_batch (fst (cycle rt s)) = _max_batch s.
Proof.
  unfold cycle.
  destruct (_enabled s); simpl; [| reflexivity].
  destruct (_worker_active s); simpl; [reflexivity |].
  destruct (drain rt s (rev (_comment_q s)) []) as [stack items].
  destruct items; reflexivity.
Qed.

(** Whatever happens inside the worker, the only attribute it changes is
    the flag, and it leaves the flag down. *)
Lemma worker_run_state rt env line s :
  fst (fst (_worker_run rt env line s)) = with_worker_active false s.
Proof.
  unfold _worker_run, M_try_finally, M_try_except, M_bind, self, lift,
    emit_signal, assign.
  destruct (_worker_reply rt env s line) as [reply | e]; simpl.
  - destruct (emit env (reply_signal reply)) as [[] | e]; simpl; [reflexivity |].
    destruct (is_Exception e); simpl; [| reflexivity].
    destruct (emit env (error_signal _)); reflexivity.
  - destruct (is_Exception e); simpl; [| reflexivity].
    destruct (emit env (error_signal _)); reflexivity.
Qed.

(** ** Invariants of the running system *)

Lemma remove_nth_length {A} (i : nat) (l : list A) (x : A) :
  nth_error l i = Some x -> S (List.length (remove_nth i l)) = List.length l.
Proof.
  revert i. induction l as [| y l IH]; intros [| i] H; simpl in *;
    try discriminate.
  - reflexivity.
  - f_equal. apply IH, H.
Qed.

Lemma boot_inv : Inv boot.
Proof. split; simpl; unfold maxlen; lia. Qed.

Lemma step_inv rt ev sys : Inv sys -> Inv (step rt ev sys).
Proof.
  intros [Hq Hb Hw].
  destruct ev; simpl;
    try (split; simpl; first [exact Hq | exact Hb | exact Hw | lia]).
  - (* set_keyword_mode *)
    unfold set_keyword_mode. destruct keywords; split; simpl; assumption.
  - (* add_comment *)
    split; unfold on_mgr; simpl.
    + apply add_comment_length, Hq.
    + unfold add_comment. destruct (_ || _); [exact Hb | exact Hb].
    + unfold add_comment. destruct (_ || _); exact Hw.
  - (* cycle *)
    pose proof (cycle_flag rt (mgr sys)) as Hflag.
    pose proof (cycle_queue_length rt (mgr sys)) as Hlen.
    pose proof (cycle_max_batch rt (mgr sys)) as Hmb.
    destruct (cycle rt (mgr sys)) as [m started]. simpl in *.
    split; simpl.
    + lia.
    + rewrite Hmb. exact Hb.
    + destruct Hflag as [[-> Hsame] | [line [-> [Hdown Hup]]]];
        rewrite length_app; simpl.
      * rewrite Hsame. lia.
      * rewrite Hup. rewrite Hdown in Hw. lia.
  - (* a worker finishes *)
    destruct (nth_error (workers sys) i) as [line |] eqn:Hnth;
      [| split; assumption].
    pose proof (worker_run_state rt env line (mgr sys)) as Hst.
    destruct (_worker_run rt env line (mgr sys)) as [[m out] r].
    simpl in Hst. subst m.
    pose proof (remove_nth_length i (workers sys) line Hnth) as Hrm.
    split; simpl; try assumption.
    destruct (_worker_active (mgr sys)); lia.
Qed.

Lemma run_inv rt evs sys : Inv sys -> Inv (run rt evs sys).
Proof.
  unfold run. revert sys.
  induction evs as [| ev evs IH]; intros sys H; simpl.
  - exact H.
  - apply IH, step_inv, H.
Qed.

Lemma reachable_inv rt evs : Inv (run rt evs boot).
Proof. apply run_inv, boot_inv. Qed.

(** ** Comment ingestion *)

(** C7. For every line that is empty or starts with "[", [add_comment]
    returns with the manager exactly as it was: the queue keeps its length
    and its contents, and the line is not in it on account of this call. *)
Theorem add_comment_ignores_system_lines
    (now : timestamp) (line : str) (s : AIReplyManager) :
  line = [] \/ startswith line (lit "[") = true ->
  add_comment now line s = s
  /\ List.length (_comment_q (add_comment now line s)) = List.length (_comment_q s)
  /\ _comment_q (add_comment now line s) = _comment_q s.
Proof.
  intros Hline.
  assert (Hsame : add_comment now line s = s).
  { unfold add_comment. destruct Hline as [-> | ->].
    - reflexivity.
    - rewrite orb_true_r. reflexivity. }
  rewrite Hsame. repeat split.
Qed.

Lemma add_comment_ignores_system_lines_witness :
  add_comment Sample.t1 (lit "[系统] 已停止监听") Sample.no_match = Sample.no_match
  /\ List.length (_comment_q (add_comment Sample.t1 (lit "[系统] 已停止监听") Sample.no_match))
     = List.length (_comment_q Sample.no_match)
  /\ _comment_q (add_comment Sample.t1 (lit "[系统] 已停止监听") Sample.no_match)
     = _comment_q Sample.no_match.
Proof.
  apply (add_comment_ignores_system_lines Sample.t1 (lit "[系统] 已停止监听")
           Sample.no_match).
  right. reflexivity.
Defined.

(** C4. After any sequence of calls on the manager -- [add_comment] calls,
    and any other method or worker run in between -- the comment queue holds
    at most 5000 entries; and an [add_comment] that is accepted (non-empty
    line not starting with "[") while the queue holds 5000 entries drops
    exactly the oldest entry and appends the new one. *)
Theorem comment_queue_bounded (rt : Runtime) (evs : list event) :
  let s := mgr (run rt evs boot) in
  (List.length (_comment_q s) <= 5000)%nat
  /\ forall (now : timestamp) (line : str),
       line <> [] -> startswith line (lit "[") = false ->
       List.length (_comment_q s) = 5000%nat ->
       exists oldest rest,
         _comment_q s = oldest :: rest
         /\ _comment_q (add_comment now line s) = rest ++ [(now, line)]
         /\ List.length (_comment_q (add_comment now line s)) = 5000%nat.
Proof.
  intros s. split.
  - apply (inv_queue _ (reachable_inv rt evs)).
  - intros now line Hne Hsys Hfull.
    destruct (_comment_q s) as [| oldest rest] eqn:Hq; [discriminate |].
    exists oldest, rest. split; [reflexivity |].
    assert (Hadd : _comment_q (add_comment now line s) = rest ++ [(now, line)]).
    { rewrite add_comment_accepted;
        [| destruct line; [contradiction | reflexivity] | exact Hsys].
      simpl. rewrite deque_append_full.
      - rewrite Hq. reflexivity.
      - unfold maxlen. lia.
      - rewrite Hq. exact Hfull. }
    split; [exact Hadd |].
    rewrite Hadd, length_app. simpl in *. lia.
Qed.

Lemma comment_queue_bounded_witness :
  let s := mgr (run Sample.rt Sample.fill boot) in
  (List.length (_comment_q s) <= 5000)%nat
  /\ exists oldest rest,
       _comment_q s = oldest :: rest
       /\ _comment_q (add_comment Sample.t2 (lit "b: hello there") s)
          = rest ++ [(Sample.t2, lit "b: hello there")]
       /\ List.length (_comment_q (add_comment Sample.t2 (lit "b: hello there") s))
          = 5000%nat.
Proof.
  intros s.
  destruct (comment_queue_bounded Sample.rt Sample.fill) as [Hle Hevict].
  split; [exact Hle |].
  apply (Hevict Sample.t2 (lit "b: hello there")).
  - discriminate.
  - reflexivity.
  - vm_compute. reflexivity.
Defined.

(** ** Single flight *)

(** C1. A [cycle()] call made while the engine is disabled, or while the
    flag [_worker_active] is up, returns at once: the manager is unchanged
    (so the queue is not drained), no worker is started and nothing is
    emitted -- the whole system is as before. Consequently, however the UI
    thread's calls and the workers' runs interleave, at most one started
    worker is unfinished at any time, and the flag is up exactly then. *)
Theorem cycle_single_flight (rt : Runtime) :
  (forall sys : System,
     _enabled (mgr sys) = false \/ _worker_active (mgr sys) = true ->
     cycle rt (mgr sys) = (mgr sys, None)
     /\ step rt call_cycle sys = sys)
  /\ (forall evs : list event,
        let sys := run rt evs boot in
        (List.length (workers sys) <= 1)%nat
        /\ (_worker_active (mgr sys) = true <-> List.length (workers sys) = 1%nat)).
Proof.
  split.
  - intros sys Hguard.
    pose proof (cycle_guard rt (mgr sys) Hguard) as Hcycle.
    split; [exact Hcycle |].
    simpl. rewrite Hcycle. rewrite app_nil_r. destruct sys; reflexivity.
  - intros evs sys.
    pose proof (inv_workers _ (reachable_inv rt evs)) as Hw.
    fold sys in Hw. rewrite Hw.
    destruct (_worker_active (mgr sys)); split; try lia;
      split; intros H; (reflexivity || discriminate).
Qed.

Lemma cycle_single_flight_witness :
  (cycle Sample.rt (mgr Sample.in_flight) = (mgr Sample.in_flight, None)
   /\ step Sample.rt call_cycle Sample.in_flight = Sample.in_flight)
  /\ (List.length (workers (run Sample.rt Sample.busy_session boot)) <= 1)%nat.
Proof.
  destruct (cycle_single_flight Sample.rt) as [Hguard Hone].
  split.
  - apply Hguard. right. vm_compute. reflexivity.
  - apply (Hone Sample.busy_session).
Defined.

(** The sample session does start a second worker once the first is done. *)
Example busy_session_workers :
  workers (run Sample.rt Sample.busy_session boot) = [lit "a: hi"]
  /\ emitted (run Sample.rt Sample.busy_session boot)
     = [reply_signal (lit "AI(Echo): hello there")].
Proof. split; vm_compute; reflexivity. Qed.

(** ** The worker *)

(** C2. For every dispatched line, whatever the backends and the bridge do
    -- the reply is emitted, a backend hands back its error as a string, or
    an exception (of any class) is raised inside the body, even inside the
    [except] handler -- the worker ends with [_worker_active] set to False,
    and that is the only attribute it changes. *)
Theorem worker_run_clears_flag
    (rt : Runtime) (env : Env) (comment_line : str) (s : AIReplyManager) :
  let '(s', _, _) := _worker_run rt env comment_line s in
  _worker_active s' = false /\ s' = with_worker_active false s.
Proof.
  pose proof (worker_run_state rt env comment_line s) as Hst.
  destruct (_worker_run rt env comment_line s) as [[s' out] r].
  simpl in Hst. subst s'. split; reflexivity.
Qed.

(** The three ways a worker run ends, on the in-flight manager. *)
Example worker_run_reply :
  _worker_run Sample.rt Sample.offline (lit "a: hi") (mgr Sample.in_flight)
  = (with_worker_active false (mgr Sample.in_flight),
     [reply_signal (lit "AI(Echo): hi")], Ok tt).
Proof. vm_compute. reflexivity. Qed.

Example worker_run_backend_error :
  _worker_run Sample.rt Sample.offline (lit "a: hi")
    (set_mode (lit "dify")
       (config_dify (lit "https://dify.example/v1/") (lit "key") (lit "")
          (mgr Sample.in_flight)))
  = (with_worker_active false
       (set_mode (lit "dify")
          (config_dify (lit "https://dify.example/v1/") (lit "key") (lit "")
             (mgr Sample.in_flight))),
     [reply_signal (lit "[AI错误] Dify 调用失败: All connection attempts failed")],
     Ok tt).
Proof. vm_compute. reflexivity. Qed.

Example worker_run_unhandled :
  _worker_run Sample.rt Sample.bridge_deleted (lit "a: hi") (mgr Sample.in_flight)
  = (with_worker_active false (mgr Sample.in_flight), [],
     Raise {| is_Exception := true;
              message := lit "wrapped C/C++ object has been deleted" |}).
Proof. vm_compute. reflexivity. Qed.

(** ** Backends *)

Lemma fails_bind {A B} (c : result A) (k : A -> result B) :
  fails_with_Exception c -> (forall a, fails_with_Exception (k a)) ->
  fails_with_Exception (bind c k).
Proof. destruct c as [a | e]; simpl; auto. Qed.

Lemma fails_Ok {A} (a : A) : fails_with_Exception (Ok a).
Proof. exact I. Qed.

Lemma fails_get v key default : fails_with_Exception (get v key default).
Proof. destruct v; exact I || reflexivity. Qed.

Lemma fails_getitem v key : fails_with_Exception (getitem v key).
Proof.
  destruct v; try reflexivity. simpl. destruct (dict_lookup d key); exact I || reflexivity.
Qed.

Lemma fails_strip_method v : fails_with_Exception (strip_method v).
Proof. destruct v; exact I || reflexivity. Qed.

Lemma fails_if {A} (b : bool) (x y : result A) :
  fails_with_Exception x -> fails_with_Exception y ->
  fails_with_Exception (if b then x else y).
Proof. destruct b; auto. Qed.

Ltac fails_step :=
  first [ apply fails_bind; [| intros ?]
        | apply fails_if
        | apply fails_Ok | apply fails_get | apply fails_getitem
        | apply fails_strip_method ].

Lemma fails_scan_blocks content : fails_with_Exception (scan_blocks content).
Proof.
  induction content as [| c rest IH]; simpl.
  - exact I.
  - repeat fails_step. exact IH.
Qed.

Lemma fails_scan_messages msgs : fails_with_Exception (scan_messages msgs).
Proof.
  induction msgs as [| msg rest IH]; simpl.
  - exact I.
  - apply fails_bind; [apply fails_get |]. intros content.
    destruct content; try exact IH.
    + apply fails_if; [exact I | exact IH].
    + apply fails_bind; [apply fails_scan_blocks |].
      intros [t |]; [exact I | exact IH].
Qed.

(** An [except Exception] clause whose handler returns a value turns every
    such body into a returning call. *)
Lemma try_except_returns {A} (body : result A) (handler : exn -> A) :
  fails_with_Exception body ->
  exists a, try_except body (fun e => Ok (handler e)) = Ok a.
Proof.
  destruct body as [a | e]; simpl; intros H.
  - exists a. reflexivity.
  - rewrite H. exists (handler e). reflexivity.
Qed.

Lemma call_openai_returns rt env s system_prompt user_prompt :
  library_failures env ->
  exists reply, _call_openai rt env s system_prompt user_prompt = Ok reply.
Proof.
  intros [Hsdk _]. unfold _call_openai.
  destruct (negb _); [eexists; reflexivity |].
  apply try_except_returns.
  apply fails_bind; [apply Hsdk |].
  intros [| [text |] rest]; exact I || reflexivity.
Qed.

Lemma fails_http env timeout url payload headers (k : json -> result str) :
  library_failures env ->
  (forall data, fails_with_Exception (k data)) ->
  fails_with_Exception
    (bind (http_post env timeout url payload headers) (fun r =>
     bind (Response.raise_for_status r) (fun _ =>
     bind (Response.json r) k))).
Proof.
  intros [_ Hhttp] Hk. specialize (Hhttp timeout url payload headers).
  destruct (http_post env timeout url payload headers) as [r | e]; simpl.
  - destruct Hhttp as [Hstatus Hjson].
    apply fails_bind; [exact Hstatus |]. intros _.
    apply fails_bind; [exact Hjson | exact Hk].
  - exact Hhttp.
Qed.

Lemma call_dify_agent_returns rt env s text :
  library_failures env ->
  exists reply, _call_dify_agent rt env s text = Ok reply.
Proof.
  intros Hlib. unfold _call_dify_agent.
  destruct (negb _); [eexists; reflexivity |].
  apply try_except_returns.
  apply fails_http; [exact Hlib |]. intros data.
  repeat fails_step.
Qed.

Lemma call_coze_agent_returns rt env s text :
  library_failures env ->
  exists reply, _call_coze_agent rt env s text = Ok reply.
Proof.
  intros Hlib. unfold _call_coze_agent.
  destruct (negb _); [eexists; reflexivity |].
  apply try_except_returns.
  apply fails_http; [exact Hlib |]. intros data.
  apply fails_bind; [apply fails_get |]. intros inner.
  apply fails_bind; [apply fails_get |]. intros nested.
  apply fails_bind; [apply fails_if; [exact I | apply fails_get] |].
  intros messages.
  apply fails_bind.
  - destruct messages as [ | | | | | [| m ms] |]; try exact I.
    apply fails_scan_messages.
  - intros [t |]; exact I.
Qed.

(** Missing configuration: the Echo fallback, with no call made. *)
Lemma call_openai_missing_config rt env s system_prompt user_prompt :
  OpenAIConfig.base_url (openai_cfg s) = []
  \/ OpenAIConfig.api_key (openai_cfg s) = []
  \/ OpenAIConfig.model (openai_cfg s) = []
  \/ OpenAI_imported rt = false ->
  _call_openai rt env s system_prompt user_prompt
  = Ok (lit "AI(Echo): " ++ strip (replace user_prompt (lit "观众评论：") [])).
Proof.
  intros H. unfold _call_openai.
  assert (Hcfg : truthy_str (OpenAIConfig.base_url (openai_cfg s))
                 && truthy_str (OpenAIConfig.api_key (openai_cfg s))
                 && truthy_str (OpenAIConfig.model (openai_cfg s))
                 && OpenAI_imported rt = false).
  { destruct H as [-> | [-> | [-> | ->]]]; simpl;
      repeat rewrite andb_false_r; reflexivity. }
  rewrite Hcfg. reflexivity.
Qed.

Lemma call_dify_agent_missing_config rt env s text :
  DifyConfig.endpoint (dify_cfg s) = [] \/ DifyConfig.api_key (dify_cfg s) = [] ->
  _call_dify_agent rt env s text = Ok (lit "AI(Echo): " ++ text).
Proof.
  intros H. unfold _call_dify_agent.
  assert (Hcfg : truthy_str (DifyConfig.endpoint (dify_cfg s))
                 && truthy_str (DifyConfig.api_key (dify_cfg s)) = false).
  { destruct H as [-> | ->]; simpl; repeat rewrite andb_false_r; reflexivity. }
  rewrite Hcfg. reflexivity.
Qed.

Lemma call_coze_agent_missing_config rt env s text :
  CozeConfig.api_key (coze_cfg s) = [] \/ CozeConfig.bot_id (coze_cfg s) = [] ->
  _call_coze_agent rt env s text = Ok (lit "AI(Echo): " ++ text).
Proof.
  intros H. unfold _call_coze_agent.
  assert (Hcfg : truthy_str (CozeConfig.api_key (coze_cfg s))
                 && truthy_str (CozeConfig.bot_id (coze_cfg s)) = false).
  { destruct H as [-> | ->]; simpl; repeat rewrite andb_false_r; reflexivity. }
  rewrite Hcfg. reflexivity.
Qed.

(** C3. For every system prompt and input text, whatever the manager's
    configuration and whatever the SDK and the HTTP peer do (their failures
    being exceptions that derive from [Exception]), each of [_call_openai],
    [_call_dify_agent] and [_call_coze_agent] returns a string: none of
    them raises. *)
Theorem backend_calls_never_raise
    (rt : Runtime) (env : Env) (s : AIReplyManager)
    (system_prompt user_prompt text : str) :
  library_failures env ->
  (exists reply, _call_openai rt env s system_prompt user_prompt = Ok reply)
  /\ (exists reply, _call_dify_agent rt env s text = Ok reply)
  /\ (exists reply, _call_coze_agent rt env s text = Ok reply).
Proof.
  intros Hlib. repeat split.
  - apply call_openai_returns, Hlib.
  - apply call_dify_agent_returns, Hlib.
  - apply call_coze_agent_returns, Hlib.
Qed.

Lemma backend_calls_never_raise_witness :
  library_failures Sample.offline
  /\ (exists reply,
        _call_openai Sample.rt Sample.offline Sample.configured
          default_system_prompt (lit "观众评论：nice stream") = Ok reply)
  /\ (exists reply,
        _call_dify_agent Sample.rt Sample.offline Sample.configured
          (lit "nice stream") = Ok reply)
  /\ (exists reply,
        _call_coze_agent Sample.rt Sample.offline Sample.configured
          (lit "nice stream") = Ok reply).
Proof.
  split.
  - split; intros; reflexivity.
  - apply (backend_calls_never_raise Sample.rt Sample.offline Sample.configured
             default_system_prompt (lit "观众评论：nice stream") (lit "nice stream")).
    split; intros; reflexivity.
Defined.

(** The kinds of result a failure is turned into. *)
Example call_dify_agent_transport_error :
  _call_dify_agent Sample.rt Sample.offline Sample.configured (lit "great show")
  = Ok (lit "[AI错误] Dify 调用失败: All connection attempts failed").
Proof. vm_compute. reflexivity. Qed.

Example call_dify_agent_answer :
  _call_dify_agent Sample.rt
    (Sample.answers (JDict [(lit "answer", JStr (lit "Thanks!"))]))
    Sample.configured (lit "great show")
  = Ok (lit "Thanks!").
Proof. vm_compute. reflexivity. Qed.

Example call_dify_agent_malformed :
  _call_dify_agent Sample.rt (Sample.answers (JList [])) Sample.configured
    (lit "great show")
  = Ok (lit "[AI错误] Dify 调用失败: 'list' object has no attribute 'get'").
Proof. vm_compute. reflexivity. Qed.

Example call_dify_agent_no_answer :
  _call_dify_agent Sample.rt (Sample.answers (JDict [])) Sample.configured
    (lit "great show")
  = Ok (lit "[AI警告] Dify 无可用 answer 字段: {...}").
Proof. vm_compute. reflexivity. Qed.

Example call_coze_agent_blocks :
  _call_coze_agent Sample.rt
    (Sample.answers
       (JDict [(lit "messages",
                JList [JDict [(lit "content", JStr (lit "old"))];
                       JDict [(lit "content",
                               JList [JDict [(lit "type", JStr (lit "image"))];
                                      JDict [(lit "type", JStr (lit "text"));
                                             (lit "text", JStr (lit " new "))]])]])]))
    Sample.configured (lit "great show")
  = Ok (lit "new").
Proof. vm_compute. reflexivity. Qed.

Example call_coze_agent_single_message :
  _call_coze_agent Sample.rt
    (Sample.answers
       (JDict [(lit "data",
                JDict [(lit "messages",
                        JList [JDict [(lit "content", JStr (lit " only "))]])])]))
    Sample.configured (lit "great show")
  = Ok (lit "only").
Proof. vm_compute. reflexivity. Qed.

Example call_openai_no_content :
  _call_openai Sample.rt (Sample.answers JNone) Sample.configured
    default_system_prompt (lit "观众评论：hi")
  = Ok (lit "[AI错误] OpenAI 调用失败: 'NoneType' object has no attribute 'strip'").
Proof. vm_compute. reflexivity. Qed.

(** ** The keyword filter in [cycle] *)

Lemma forallb_rev {A} (f : A -> bool) (l : list A) :
  forallb f (rev l) = forallb f l.
Proof.
  induction l as [| x l IH]; simpl.
  - reflexivity.
  - rewrite forallb_app, IH. simpl. rewrite andb_true_r. apply andb_comm.
Qed.

(** A cycle that passes its guards and accepts nothing has popped and
    dropped every queued entry. *)
Lemma cycle_none rt s :
  _enabled s = true -> _worker_active s = false -> (1 <= _max_batch s)%Z ->
  snd (cycle rt s) = None ->
  fst (cycle rt s) = with_comment_q [] s
  /\ forallb (rejected rt s) (_comment_q s) = true.
Proof.
  intros Hen Hflag Hb. unfold cycle. rewrite Hen, Hflag. simpl.
  pose proof (drain_nothing_accepted rt s (rev (_comment_q s)) Hb) as Hdrain.
  destruct (drain rt s (rev (_comment_q s)) []) as [stack items].
  destruct items as [| line rest]; simpl; [| discriminate].
  intros _. destruct (Hdrain eq_refl) as [Hstack Hrej]. simpl in Hstack.
  subst stack. rewrite forallb_rev in Hrej. split; [reflexivity | exact Hrej].
Qed.

Lemma cycle_all_rejected rt s :
  _enabled s = true -> _worker_active s = false -> (1 <= _max_batch s)%Z ->
  forallb (rejected rt s) (_comment_q s) = true ->
  cycle rt s = (with_comment_q [] s, None).
Proof.
  intros Hen Hflag Hb Hrej. unfold cycle. rewrite Hen, Hflag. simpl.
  rewrite drain_all_rejected; [reflexivity | exact Hb |].
  rewrite forallb_rev. exact Hrej.
Qed.

(** C5 (as amended). With keyword filter ["hello"], batch size 1, and the
    queue holding "a: hi" then "b: hello there" in enqueue order, one
    [cycle()] pops the newest line "b: hello there", accepts it and starts a
    worker for exactly that line; the batch is then full, so "a: hi" is not
    popped and stays in the queue. *)
Theorem cycle_hello_example
    (rt : Runtime) (s : AIReplyManager) (ta tb : timestamp) :
  _enabled s = true -> _worker_active s = false ->
  _keyword_mode s = true -> _keywords s = [lit "hello"] -> _max_batch s = 1%Z ->
  _comment_q s = [(ta, lit "a: hi"); (tb, lit "b: hello there")] ->
  cycle rt s
  = (with_worker_active true (with_comment_q [(ta, lit "a: hi")] s),
     Some (lit "b: hello there")).
Proof.
  intros Hen Hflag Hmode Hkw Hb Hq.
  unfold cycle. rewrite Hen, Hflag, Hq. simpl rev. simpl negb. cbv iota.
  unfold drain, _accept_line. rewrite Hmode, Hkw, Hb.
  vm_compute. reflexivity.
Qed.

Lemma cycle_hello_example_witness :
  cycle Sample.rt Sample.hello_filter
  = (with_worker_active true
       (with_comment_q [(Sample.t1, lit "a: hi")] Sample.hello_filter),
     Some (lit "b: hello there")).
Proof.
  apply (cycle_hello_example Sample.rt Sample.hello_filter Sample.t1 Sample.t2);
    vm_compute; reflexivity.
Defined.

(** C5 as stated fails: after the cycle that dispatches "b: hello there",
    the line "a: hi" is still in the queue. *)
Lemma cycle_hello_example_keeps_older_line :
  snd (cycle Sample.rt Sample.hello_filter) = Some (lit "b: hello there")
  /\ In (lit "a: hi")
        (map snd (_comment_q (fst (cycle Sample.rt Sample.hello_filter)))).
Proof. split; vm_compute; [reflexivity | left; reflexivity]. Qed.

(** A rejected line is dropped when it is newer than the match. *)
Example cycle_hello_example_swapped :
  cycle Sample.rt Sample.hello_filter_swapped
  = (with_worker_active true (with_comment_q [] Sample.hello_filter_swapped),
     Some (lit "b: hello there")).
Proof. vm_compute. reflexivity. Qed.

(** C6 (as amended). When [cycle()] runs (engine enabled, no dispatch in
    flight) and accepts no entry, it starts no worker and emits nothing, and
    the only attribute it changes is the queue, which it leaves empty: every
    entry that was queued has been popped, rejected and dropped. *)
Theorem cycle_nothing_accepted (rt : Runtime) (evs : list event) :
  let sys := run rt evs boot in
  _enabled (mgr sys) = true -> _worker_active (mgr sys) = false ->
  snd (cycle rt (mgr sys)) = None ->
  step rt call_cycle sys = on_mgr (with_comment_q []) sys
  /\ forallb (rejected rt (mgr sys)) (_comment_q (mgr sys)) = true.
Proof.
  intros sys Hen Hflag Hnone.
  pose proof (inv_batch _ (reachable_inv rt evs)) as Hb. fold sys in Hb.
  destruct (cycle_none rt (mgr sys) Hen Hflag Hb Hnone) as [Hst Hrej].
  split; [| exact Hrej].
  simpl. destruct (cycle rt (mgr sys)) as [m started]. simpl in *.
  subst m started. rewrite app_nil_r. reflexivity.
Qed.

Lemma cycle_nothing_accepted_witness :
  let sys := run Sample.rt Sample.no_match_session boot in
  step Sample.rt call_cycle sys = on_mgr (with_comment_q []) sys
  /\ forallb (rejected Sample.rt (mgr sys)) (_comment_q (mgr sys)) = true.
Proof.
  apply (cycle_nothing_accepted Sample.rt Sample.no_match_session);
    vm_compute; reflexivity.
Defined.

(** C6 as stated fails: the engine is enabled, no dispatch is in flight,
    the one queued line does not pass the filter, and the cycle empties the
    queue instead of leaving the manager as it was. *)
Lemma cycle_nothing_accepted_drains :
  _enabled Sample.no_match = true
  /\ _worker_active Sample.no_match = false
  /\ snd (cycle Sample.rt Sample.no_match) = None
  /\ _comment_q Sample.no_match = [(Sample.t1, lit "a: hi")]
  /\ _comment_q (fst (cycle Sample.rt Sample.no_match)) = []
  /\ fst (cycle Sample.rt Sample.no_match) <> Sample.no_match.
Proof.
  repeat split; try (vm_compute; reflexivity).
  intros Heq. apply (f_equal _comment_q) in Heq. vm_compute in Heq. discriminate.
Qed.

(** ** Keyword mode with no keyword *)

Lemma set_keyword_mode_blank enabled ks s :
  forallb blank ks = true ->
  set_keyword_mode enabled (Some ks) s
  = with_keywords [] (with_keyword_mode enabled s).
Proof.
  intros Hblank. unfold set_keyword_mode. f_equal.
  induction ks as [| k ks IH]; simpl in *.
  - reflexivity.
  - apply andb_true_iff in Hblank as [Hk Hks].
    unfold blank in Hk. apply negb_true_iff in Hk. rewrite Hk. apply IH, Hks.
Qed.

Lemma accept_line_no_keyword rt s line :
  _keyword_mode s = true -> _keywords s = [] -> _accept_line rt s line = false.
Proof. intros Hmode Hkw. unfold _accept_line. rewrite Hmode, Hkw. reflexivity. Qed.

(** No keyword, no acceptance: [cycle] starts nothing, guards or not. *)
Lemma cycle_no_keyword rt s :
  _keyword_mode s = true -> _keywords s = [] -> snd (cycle rt s) = None.
Proof.
  intros Hmode Hkw. unfold cycle.
  destruct (_enabled s); simpl; [| reflexivity].
  destruct (_worker_active s); simpl; [reflexivity |].
  assert (Hitems : forall stack, snd (drain rt s stack []) = []).
  { induction stack as [| [ts line] rest IH]; simpl; [reflexivity |].
    rewrite (accept_line_no_keyword rt s line Hmode Hkw).
    destruct (_ <? _)%Z; [exact IH | reflexivity]. }
  specialize (Hitems (rev (_comment_q s))).
  destruct (drain rt s (rev (_comment_q s)) []) as [stack items].
  simpl in Hitems. subst items. reflexivity.
Qed.

(** C10. Keyword mode enabled with an empty keyword list -- which is what
    [set_keyword_mode(True, ks)] leaves when every keyword of [ks] is blank,
    since blank keywords are stripped out -- makes [_accept_line] False for
    every line. At any point of any run where the manager is in that
    configuration, [cycle()] starts no worker and emits nothing, and a
    [cycle()] that gets past its guards (engine enabled, no dispatch in
    flight) pops and drops every queued comment: the queue is left empty
    and nothing else changes. *)
Theorem keyword_mode_without_keywords (rt : Runtime) :
  (forall (ks : list str) (s : AIReplyManager),
     forallb blank ks = true ->
     _keyword_mode (set_keyword_mode true (Some ks) s) = true
     /\ _keywords (set_keyword_mode true (Some ks) s) = [])
  /\ (forall evs : list event,
        let sys := run rt evs boot in
        _keyword_mode (mgr sys) = true -> _keywords (mgr sys) = [] ->
        (forall line, _accept_line rt (mgr sys) line = false)
        /\ snd (cycle rt (mgr sys)) = None
        /\ workers (step rt call_cycle sys) = workers sys
        /\ emitted (step rt call_cycle sys) = emitted sys
        /\ (_enabled (mgr sys) = true -> _worker_active (mgr sys) = false ->
            step rt call_cycle sys = on_mgr (with_comment_q []) sys)).
Proof.
  split.
  - intros ks s Hblank. rewrite set_keyword_mode_blank by exact Hblank.
    split; reflexivity.
  - intros evs sys Hmode Hkw.
    pose proof (reachable_inv rt evs) as Hinv. fold sys in Hinv.
    pose proof (cycle_no_keyword rt (mgr sys) Hmode Hkw) as Hnone.
    split; [intros line; apply accept_line_no_keyword; assumption |].
    split; [exact Hnone |].
    assert (Hstep : step rt call_cycle sys
                    = {| mgr := fst (cycle rt (mgr sys));
                         workers := workers sys; emitted := emitted sys |}).
    { simpl. destruct (cycle rt (mgr sys)) as [m started]. simpl in *.
      subst started. rewrite app_nil_r. reflexivity. }
    rewrite Hstep. simpl.
    split; [reflexivity |]. split; [reflexivity |].
    intros Hen Hflag.
    destruct (cycle_none rt (mgr sys) Hen Hflag (inv_batch _ Hinv) Hnone) as [Hst _].
    rewrite Hst. reflexivity.
Qed.

Lemma keyword_mode_without_keywords_witness :
  let sys := run Sample.rt Sample.blank_session boot in
  (_keyword_mode (set_keyword_mode true (Some Sample.blank_keywords) init) = true
   /\ _keywords (set_keyword_mode true (Some Sample.blank_keywords) init) = [])
  /\ (forall line, _accept_line Sample.rt (mgr sys) line = false)
  /\ snd (cycle Sample.rt (mgr sys)) = None
  /\ workers (step Sample.rt call_cycle sys) = workers sys
  /\ emitted (step Sample.rt call_cycle sys) = emitted sys
  /\ (_enabled (mgr sys) = true -> _worker_active (mgr sys) = false ->
      step Sample.rt call_cycle sys = on_mgr (with_comment_q []) sys).
Proof.
  intros sys.
  destruct (keyword_mode_without_keywords Sample.rt) as [Hset Hrun].
  split.
  - apply (Hset Sample.blank_keywords init). vm_compute. reflexivity.
  - apply (Hrun Sample.blank_session); vm_compute; reflexivity.
Defined.

(** In the sample session the cycle dropped the two lines queued before it;
    the line that arrived afterwards goes with the next cycle. *)
Example blank_session_queue :
  let sys := run Sample.rt Sample.blank_session boot in
  _comment_q (mgr sys) = [(Sample.t2, lit "c: hello")]
  /\ workers sys = [] /\ emitted sys = []
  /\ _comment_q (mgr (step Sample.rt call_cycle sys)) = [].
Proof. vm_compute. repeat split. Qed.

(** ** Degrading to Echo *)

(** C8. In openai mode with an empty [api_key], whatever the rest of the
    configuration, the custom prompt and the outside world are, the reply
    generated for the line "alice: nice stream" is "AI(Echo): nice stream":
    the comment text "nice stream" is extracted, wrapped in the user prompt,
    and [_call_openai] echoes it back; the worker then emits exactly that
    string as its reply when the bridge lets it. *)
Theorem openai_without_api_key_echoes
    (rt : Runtime) (env : Env) (s : AIReplyManager) :
  mode s = openai -> OpenAIConfig.api_key (openai_cfg s) = [] ->
  _extract_comment_text (lit "alice: nice stream") = lit "nice stream"
  /\ _call_openai rt env s (fst (_build_prompts s (lit "nice stream")))
       (snd (_build_prompts s (lit "nice stream")))
     = Ok (lit "AI(Echo): nice stream")
  /\ _worker_reply rt env s (lit "alice: nice stream")
     = Ok (lit "AI(Echo): nice stream")
  /\ (emit env (reply_signal (lit "AI(Echo): nice stream")) = Ok tt ->
      _worker_run rt env (lit "alice: nice stream") s
      = (with_worker_active false s,
         [reply_signal (lit "AI(Echo): nice stream")], Ok tt)).
Proof.
  intros Hmode Hkey.
  assert (Hcall : forall system_prompt,
            _call_openai rt env s system_prompt (lit "观众评论：" ++ lit "nice stream")
            = Ok (lit "AI(Echo): nice stream")).
  { intros system_prompt. unfold _call_openai. rewrite Hkey.
    simpl truthy_str. rewrite andb_false_r. simpl negb. cbv iota.
    vm_compute. reflexivity. }
  assert (Hreply : _worker_reply rt env s (lit "alice: nice stream")
                   = Ok (lit "AI(Echo): nice stream")).
  { unfold _worker_reply. rewrite Hmode.
    change (_extract_comment_text (lit "alice: nice stream"))
      with (lit "nice stream").
    unfold _build_prompts. rewrite Hcall. vm_compute. reflexivity. }
  split; [vm_compute; reflexivity |].
  split; [unfold _build_prompts; simpl fst; simpl snd; apply Hcall |].
  split; [exact Hreply |].
  intros Hemit.
  unfold _worker_run, M_try_finally, M_try_except, M_bind, self, lift,
    emit_signal, assign.
  rewrite Hreply, Hemit. reflexivity.
Qed.

Lemma openai_without_api_key_echoes_witness :
  _extract_comment_text (lit "alice: nice stream") = lit "nice stream"
  /\ _call_openai Sample.rt Sample.offline Sample.openai_no_key
       (fst (_build_prompts Sample.openai_no_key (lit "nice stream")))
       (snd (_build_prompts Sample.openai_no_key (lit "nice stream")))
     = Ok (lit "AI(Echo): nice stream")
  /\ _worker_reply Sample.rt Sample.offline Sample.openai_no_key
       (lit "alice: nice stream")
     = Ok (lit "AI(Echo): nice stream")
  /\ (emit Sample.offline (reply_signal (lit "AI(Echo): nice stream")) = Ok tt ->
      _worker_run Sample.rt Sample.offline (lit "alice: nice stream")
        Sample.openai_no_key
      = (with_worker_active false Sample.openai_no_key,
         [reply_signal (lit "AI(Echo): nice stream")], Ok tt)).
Proof.
  apply (openai_without_api_key_echoes Sample.rt Sample.offline
           Sample.openai_no_key);
    vm_compute; reflexivity.
Defined.

(** ** The connection supervisor's [stop] *)

(** C9. [stop()] on a fetcher that is not running reports the error
    "未连接或已停止" (not connected or already stopped) -- it is logged, and
    passed to the error callback, or failing that to the comment callback --
    and changes nothing: the fetcher, with its running flag, thread and
    loop, is as before, and no disconnect is scheduled, no future probed,
    no thread joined. *)
Theorem stop_when_not_running
    (o : TikTok.Outside) (timeout : Q) (f : TikTok.TikTokCommentFetcher) :
  TikTok._running f = false ->
  let '(f', (effects, outcome)) := TikTok.stop o timeout f in
  f' = f
  /\ TikTok._running f' = false
  /\ TikTok._thread f' = TikTok._thread f
  /\ TikTok._loop f' = TikTok._loop f
  /\ (effects, outcome) = TikTok._emit_error f (lit "未连接或已停止")
  /\ In (TikTok.log_error (lit "未连接或已停止")) effects
  /\ forallb (fun e => negb (TikTok.touches_connection e)) effects = true.
Proof.
  intros Hidle. unfold TikTok.stop. rewrite Hidle. simpl negb. cbv iota.
  unfold TikTok._emit_error, TikTok.T_bind.
  destruct (TikTok.error_callback f) as [cb |];
    [| destruct (TikTok.comment_callback f) as [cb |]];
    simpl; repeat split; auto.
Qed.

Lemma stop_when_not_running_witness :
  let '(f', (effects, outcome)) :=
    TikTok.stop Sample.cooperative 5.0 Sample.idle_fetcher in
  f' = Sample.idle_fetcher
  /\ TikTok._running f' = false
  /\ TikTok._thread f' = TikTok._thread Sample.idle_fetcher
  /\ TikTok._loop f' = TikTok._loop Sample.idle_fetcher
  /\ (effects, outcome)
     = TikTok._emit_error Sample.idle_fetcher (lit "未连接或已停止")
  /\ In (TikTok.log_error (lit "未连接或已停止")) effects
  /\ forallb (fun e => negb (TikTok.touches_connection e)) effects = true.
Proof.
  apply (stop_when_not_running Sample.cooperative 5.0 Sample.idle_fetcher).
  reflexivity.
Defined.

(** On a running fetcher [stop] does schedule, probe, join and clear the
    flag. *)
Example stop_when_running :
  TikTok.stop Sample.cooperative 5.0 Sample.live_fetcher
  = (TikTok.with_running false Sample.live_fetcher,
     ([TikTok.schedule_disconnect 1 5.0; TikTok.probe_future 0.1;
       TikTok.join_thread 1 5.0; TikTok.log_info (lit "已停止监听");
       TikTok.call_comment_callback (lit "[系统] 已停止监听")],
      Ok tt)).
Proof. vm_compute. reflexivity. Qed.

(* ===================================================================== *)
(** * Further properties of the manager *)
(* ===================================================================== *)

(** ** What a cycle takes from the queue *)

Lemma drain_pops_prefix rt s stack items :
  exists popped, stack = popped ++ fst (drain rt s stack items).
Proof.
  revert items. induction stack as [| [ts line] rest IH]; intros items; simpl.
  - exists []. reflexivity.
  - destruct (Z.of_nat (List.length items) <? _max_batch s)%Z.
    + destruct (IH (if _accept_line rt s line then items ++ [line] else items))
        as [popped Hpopped].
      exists ((ts, line) :: popped). simpl. f_equal. exact Hpopped.
    + exists []. reflexivity.
Qed.



(** X1. Whatever the state, [cycle()] only removes entries from the newest
    end of the queue: what is left is an initial segment of what was
    there, in the same order, and nothing is added. *)
Theorem cycle_keeps_oldest_segment (rt : Runtime) (s : AIReplyManager) :
  exists popped, _comment_q s = _comment_q (fst (cycle rt s)) ++ popped.
Proof.
  unfold cycle.
  destruct (_enabled s); simpl; [| exists []; rewrite app_nil_r; reflexivity].
  destruct (_worker_active s); simpl; [exists []; rewrite app_nil_r; reflexivity |].
  destruct (drain_pops_prefix rt s (rev (_comment_q s)) []) as [popped Hpopped].
  destruct (drain rt s (rev (_comment_q s)) []) as [stack items].
  simpl in Hpopped. exists (rev popped).
  assert (Hq : _comment_q s = rev stack ++ rev popped).
  { rewrite <- rev_app_distr, <- Hpopped, rev_involutive. reflexivity. }
  destruct items; simpl; exact Hq.
Qed.



(** With no filter the loop pops until the batch is full. *)
Lemma drain_unfiltered rt s stack items :
  _keyword_mode s = false ->
  drain rt s stack items
  = (skipn (Z.to_nat (_max_batch s - Z.of_nat (List.length items))) stack,
     items ++ map snd
       (firstn (Z.to_nat (_max_batch s - Z.of_nat (List.length items))) stack)).
Proof.
  intros Hmode. revert items.
  induction stack as [| [ts line] rest IH]; intros items; simpl.
  - rewrite skipn_nil, firstn_nil, app_nil_r. reflexivity.
  - unfold _accept_line. rewrite Hmode. simpl.
    destruct (Z.ltb_spec (Z.of_nat (List.length items)) (_max_batch s)) as [Hlt | Hge].
    + rewrite IH. rewrite length_app. simpl.
      replace (Z.to_nat (_max_batch s - Z.of_nat (List.length items)))
        with (S (Z.to_nat (_max_batch s - Z.of_nat (List.length items + 1)))) by lia.
      simpl. rewrite <- app_assoc. reflexivity.
    + replace (Z.to_nat (_max_batch s - Z.of_nat (List.length items))) with 0%nat by lia.
      simpl. rewrite app_nil_r. reflexivity.
Qed.

(** X3. With keyword mode off, a [cycle()] that passes its guards on a
    non-empty queue pops the [max_batch] newest lines (all of them when
    fewer are queued) and dispatches only the newest: the other popped lines
    are gone from the queue without a worker of their own. *)
Theorem cycle_unfiltered_batch
    (rt : Runtime) (s : AIReplyManager)
    (older : list (timestamp * str)) (ts : timestamp) (line : str) :
  _enabled s = true -> _worker_active s = false -> _keyword_mode s = false ->
  (1 <= _max_batch s)%Z ->
  _comment_q s = older ++ [(ts, line)] ->
  cycle rt s
  = (with_worker_active true
       (with_comment_q
          (firstn (List.length older - (Z.to_nat (_max_batch s) - 1)) older) s),
     Some line).
Proof.
  intros Hen Hflag Hmode Hb Hq.
  unfold cycle. rewrite Hen, Hflag. simpl negb. cbv iota.
  rewrite (drain_unfiltered rt s (rev (_comment_q s)) [] Hmode).
  simpl List.length. rewrite Z.sub_0_r. simpl app.
  rewrite skipn_rev, rev_involutive, Hq.
  rewrite rev_app_distr. simpl rev. simpl app.
  destruct (Z.to_nat (_max_batch s)) as [| n] eqn:Hn; [lia |].
  simpl firstn. simpl map. unfold _start_worker.
  rewrite length_app. simpl List.length.
  replace (List.length older + 1 - S n)%nat with (List.length older - n)%nat by lia.
  rewrite firstn_app.
  replace (List.length older - n - List.length older)%nat with 0%nat by lia.
  simpl firstn. rewrite app_nil_r.
  rewrite Nat.sub_0_r. reflexivity.
Qed.

Lemma cycle_unfiltered_batch_witness :
  let s := set_max_batch 2
             (with_comment_q [(Sample.t1, lit "a: hi"); (Sample.t1, lit "b: hey");
                              (Sample.t2, lit "c: yo")]
                (set_enabled true init)) in
  cycle Sample.rt s
  = (with_worker_active true
       (with_comment_q
          (firstn (2 - (Z.to_nat (_max_batch s) - 1))
             [(Sample.t1, lit "a: hi"); (Sample.t1, lit "b: hey")]) s),
     Some (lit "c: yo")).
Proof.
  intros s.
  apply (cycle_unfiltered_batch Sample.rt s
           [(Sample.t1, lit "a: hi"); (Sample.t1, lit "b: hey")]
           Sample.t2 (lit "c: yo"));
    vm_compute; (reflexivity || discriminate).
Defined.

(** The second of three lines is popped with the third and never replied to. *)
Example cycle_batch_of_two :
  cycle Sample.rt
    (set_max_batch 2
       (with_comment_q [(Sample.t1, lit "a: hi"); (Sample.t1, lit "b: hey");
                        (Sample.t2, lit "c: yo")]
          (set_enabled true init)))
  = (with_worker_active true
       (set_max_batch 2
          (with_comment_q [(Sample.t1, lit "a: hi")] (set_enabled true init))),
     Some (lit "c: yo")).
Proof. vm_compute. reflexivity. Qed.

(** ** What the queue holds after a run of [add_comment] calls *)

Lemma lastn_app_one {A} (n : nat) (l : list A) (x : A) :
  lastn n (lastn n l ++ [x]) = lastn n (l ++ [x]).
Proof.
  unfold lastn.
  assert (Hpush : skipn (List.length l - n) l ++ [x]
                  = skipn (List.length l - n) (l ++ [x])).
  { rewrite skipn_app.
    replace (List.length l - n - List.length l)%nat with 0%nat by lia.
    reflexivity. }
  rewrite Hpush, skipn_skipn. f_equal.
  rewrite length_skipn, length_app. simpl. lia.
Qed.

Lemma deque_append_lastn {A} (n : nat) (q : list A) (x : A) :
  (List.length q <= n)%nat -> deque_append n q x = lastn n (q ++ [x]).
Proof.
  intros Hq. unfold deque_append, lastn. rewrite length_app. simpl List.length.
  destruct (Nat.ltb_spec n (List.length q + 1)) as [Hfull | Hroom].
  - replace (List.length q + 1 - n)%nat with 1%nat by lia.
    destruct q; reflexivity.
  - replace (List.length q + 1 - n)%nat with 0%nat by lia. reflexivity.
Qed.

Lemma lastn_length {A} (n : nat) (l : list A) :
  (List.length (lastn n l) <= n)%nat.
Proof. unfold lastn. rewrite length_skipn. lia. Qed.

Lemma add_comments_from calls s (seen : list (timestamp * str)) :
  _comment_q s = lastn maxlen seen ->
  _comment_q (add_comments calls s)
  = lastn maxlen (seen ++ filter (fun call => admitted (snd call)) calls).
Proof.
  revert s seen. induction calls as [| [now line] calls IH]; intros s seen Hq; simpl.
  - rewrite app_nil_r. exact Hq.
  - unfold add_comments in *. simpl.
    unfold admitted at 1. simpl snd. unfold add_comment at 2.
    destruct (truthy_str line); simpl; [| apply IH, Hq].
    destruct (startswith line (lit "[")); simpl; [apply IH, Hq |].
    replace (seen ++ (now, line) :: filter (fun call => admitted (snd call)) calls)
      with ((seen ++ [(now, line)]) ++ filter (fun call => admitted (snd call)) calls)
      by (rewrite <- app_assoc; reflexivity).
    apply IH. simpl.
    rewrite deque_append_lastn by (rewrite Hq; apply lastn_length).
    rewrite Hq. apply lastn_app_one.
Qed.

(** X4. After any run of [add_comment] calls on a new manager, the queue
    holds the admitted lines (non-empty, not starting with "[") with their
    timestamps, in arrival order, and of those exactly the 5000 most
    recent. *)
Theorem add_comments_keep_most_recent (calls : list (timestamp * str)) :
  _comment_q (add_comments calls init)
  = lastn 5000 (filter (fun call => admitted (snd call)) calls).
Proof. apply (add_comments_from calls init []). reflexivity. Qed.

Example add_comments_sample :
  _comment_q
    (add_comments [(Sample.t1, lit "a: hi"); (Sample.t1, lit "[系统] x");
                   (Sample.t2, []); (Sample.t2, lit "b: hello there")] init)
  = [(Sample.t1, lit "a: hi"); (Sample.t2, lit "b: hello there")].
Proof. vm_compute. reflexivity. Qed.

(** ** Pausing *)

Lemma cycle_empty_queue rt s :
  _comment_q s = [] -> cycle rt s = (s, None).
Proof.
  intros Hq. unfold cycle.
  destruct (_enabled s); simpl; [| reflexivity].
  destruct (_worker_active s); simpl; [reflexivity |].
  rewrite Hq. simpl. destruct s. simpl in *. subst. reflexivity.
Qed.

(** X5. Once [clear_pending_comments()] has emptied the queue, and until
    the next comment comes in, no [cycle()] starts a worker, whatever the
    flags are and whenever the workers in flight finish: the queue stays
    empty and no thread is added to those already started. *)
Theorem nothing_dispatched_after_clear
    (rt : Runtime) (sys : System) (evs : list event) :
  forallb tick_or_worker evs = true ->
  let sys' := run rt evs (step rt call_clear_pending_comments sys) in
  _comment_q (mgr sys') = []
  /\ (List.length (workers sys') <= List.length (workers sys))%nat
  /\ step rt call_cycle sys' = sys'.
Proof.
  intros Hevs.
  assert (Hgen : forall sys0, _comment_q (mgr sys0) = [] ->
            _comment_q (mgr (run rt evs sys0)) = []
            /\ (List.length (workers (run rt evs sys0)) <= List.length (workers sys0))%nat).
  { unfold run. induction evs as [| ev evs IH]; intros sys0 Hq; simpl.
    - split; [exact Hq | lia].
    - simpl in Hevs. apply andb_true_iff in Hevs as [Hev Hrest].
      specialize (IH Hrest).
      destruct ev; try discriminate; simpl.
      + rewrite (cycle_empty_queue rt (mgr sys0) Hq). simpl. rewrite app_nil_r.
        apply (IH {| mgr := mgr sys0; workers := workers sys0;
                     emitted := emitted sys0 |} Hq).
      + destruct (nth_error (workers sys0) i) as [line |] eqn:Hnth;
          [| apply IH, Hq].
        pose proof (worker_run_state rt env line (mgr sys0)) as Hst.
        pose proof (remove_nth_length i (workers sys0) line Hnth) as Hlen.
        destruct (_worker_run rt env line (mgr sys0)) as [[m out] r].
        simpl in Hst. subst m.
        destruct (IH {| mgr := with_worker_active false (mgr sys0);
                        workers := remove_nth i (workers sys0);
                        emitted := emitted sys0 ++ out |} Hq) as [H1 H2].
        simpl in H2. split; [exact H1 | lia]. }
  intros sys'.
  destruct (Hgen (step rt call_clear_pending_comments sys) eq_refl) as [Hq Hw].
  fold sys' in Hq, Hw. split; [exact Hq |]. split; [exact Hw |].
  simpl. rewrite (cycle_empty_queue rt (mgr sys') Hq), app_nil_r.
  destruct sys'; reflexivity.
Qed.

Lemma nothing_dispatched_after_clear_witness :
  let sys' :=
    run Sample.rt [call_cycle; worker_finishes 0 Sample.offline; call_cycle]
      (step Sample.rt call_clear_pending_comments Sample.in_flight) in
  _comment_q (mgr sys') = []
  /\ (List.length (workers sys') <= List.length (workers Sample.in_flight))%nat
  /\ step Sample.rt call_cycle sys' = sys'.
Proof.
  apply (nothing_dispatched_after_clear Sample.rt Sample.in_flight
           [call_cycle; worker_finishes 0 Sample.offline; call_cycle]).
  reflexivity.
Defined.

(** ** Keywords *)

Lemma lstrip_by_fixed drop s :
  lstrip_by drop (lstrip_by drop s) = lstrip_by drop s.
Proof.
  induction s as [| c s IH]; simpl; [reflexivity |].
  destruct (drop c) eqn:Hc; [exact IH |]. simpl. rewrite Hc. reflexivity.
Qed.

Lemma lstrip_by_head drop s c w : lstrip_by drop s = c :: w -> drop c = false.
Proof.
  induction s as [| a s IH]; simpl; [discriminate |].
  destruct (drop a) eqn:Ha; [exact IH |].
  intros H. injection H as -> _. exact Ha.
Qed.

Lemma lstrip_by_keeps drop s :
  match s with [] => True | c :: _ => drop c = false end ->
  lstrip_by drop s = s.
Proof. destruct s as [| c s]; simpl; [reflexivity |]. intros ->. reflexivity. Qed.

Lemma lstrip_by_split drop s :
  exists dropped, s = dropped ++ lstrip_by drop s /\ forallb drop dropped = true.
Proof.
  induction s as [| c s [dropped [Hs Hd]]]; simpl.
  - exists []. split; reflexivity.
  - destruct (drop c) eqn:Hc.
    + exists (c :: dropped). simpl. rewrite Hc, Hd. split; [f_equal; exact Hs | reflexivity].
    + exists []. split; reflexivity.
Qed.

(** A stripped string starts with no whitespace... *)
Lemma strip_front s : lstrip_by isspace (strip s) = strip s.
Proof.
  unfold strip, rstrip_by.
  destruct (lstrip_by_split isspace (rev (lstrip_by isspace s)))
    as [dropped [Hsplit _]].
  set (t := lstrip_by isspace s) in *.
  set (r := lstrip_by isspace (rev t)) in *.
  apply lstrip_by_keeps.
  destruct (rev r) as [| c w] eqn:Hr; [exact I |].
  assert (Ht : t = c :: w ++ rev dropped).
  { rewrite <- (rev_involutive t), Hsplit, rev_app_distr, Hr. reflexivity. }
  apply (lstrip_by_head isspace s c (w ++ rev dropped)). exact Ht.
Qed.

(** ... and ends with none. *)
Lemma strip_back s : lstrip_by isspace (rev (strip s)) = rev (strip s).
Proof.
  unfold strip, rstrip_by. rewrite rev_involutive. apply lstrip_by_fixed.
Qed.

Lemma strip_idempotent s : strip (strip s) = strip s.
Proof.
  unfold strip at 1. unfold rstrip_by.
  rewrite strip_front, strip_back. apply rev_involutive.
Qed.

Lemma cycle_keywords rt s : _keywords (fst (cycle rt s)) = _keywords s.
Proof.
  unfold cycle.
  destruct (_enabled s); simpl; [| reflexivity].
  destruct (_worker_active s); simpl; [reflexivity |].
  destruct (drain rt s (rev (_comment_q s)) []) as [stack items].
  destruct items; reflexivity.
Qed.

Lemma set_keyword_mode_keywords enabled ks s k :
  In k (_keywords (set_keyword_mode enabled (Some ks) s)) ->
  k <> [] /\ strip k = k.
Proof.
  unfold set_keyword_mode. simpl. intros Hin.
  apply in_map_iff in Hin as [k0 [<- Hk0]].
  apply filter_In in Hk0 as [_ Hk0].
  split; [| apply strip_idempotent].
  destruct (strip k0); [discriminate | discriminate].
Qed.

(** X6. In every state the system can reach, each stored keyword is
    non-empty and has no whitespace at either end: [set_keyword_mode] drops
    blank keywords and strips the others, and nothing else writes the list.
    (An empty keyword would be a substring of every line.) *)
Theorem keywords_never_blank (rt : Runtime) (evs : list event) :
  forall k, In k (_keywords (mgr (run rt evs boot))) -> k <> [] /\ strip k = k.
Proof.
  unfold run.
  assert (Hgen : forall sys,
            (forall k, In k (_keywords (mgr sys)) -> k <> [] /\ strip k = k) ->
            forall k,
              In k (_keywords (mgr (fold_left (fun sys ev => step rt ev sys) evs sys))) ->
              k <> [] /\ strip k = k).
  { induction evs as [| ev evs IH]; intros sys Hsys; simpl; [exact Hsys |].
    apply IH. clear IH.
    destruct ev; simpl; try exact Hsys.
    - destruct keywords as [ks |]; [| exact Hsys].
      intros k. apply set_keyword_mode_keywords.
    - unfold add_comment. destruct (_ || _); exact Hsys.
    - pose proof (cycle_keywords rt (mgr sys)) as Hk.
      destruct (cycle rt (mgr sys)) as [m started]. simpl in *.
      rewrite Hk. exact Hsys.
    - destruct (nth_error (workers sys) i) as [line |]; [| exact Hsys].
      pose proof (worker_run_state rt env line (mgr sys)) as Hst.
      destruct (_worker_run rt env line (mgr sys)) as [[m out] r].
      simpl in *. subst m. exact Hsys. }
  apply Hgen. simpl. intros k [].
Qed.

Lemma keywords_never_blank_witness :
  lit "hello" <> [] /\ strip (lit "hello") = lit "hello".
Proof.
  apply (keywords_never_blank Sample.rt Sample.padded_keywords (lit "hello")).
  vm_compute. left. reflexivity.
Defined.

(** ** The worker's signals *)

Lemma worker_reply_not_empty rt env s line reply :
  _worker_reply rt env s line = Ok reply -> reply <> [].
Proof.
  unfold _worker_reply. simpl.
  destruct (match mode s with
            | openai => _ | dify => _ | coze => _ | echo => _
            end) as [r | e]; simpl; [| discriminate].
  intros H. injection H as <-.
  destruct r; simpl; discriminate.
Qed.

Lemma worker_reply_returns rt env s line :
  library_failures env -> exists reply, _worker_reply rt env s line = Ok reply.
Proof.
  intros Hlib. unfold _worker_reply, _build_prompts. cbv beta iota zeta.
  destruct (mode s).
  - match goal with
    | |- context [_call_openai rt env s ?a ?b] =>
        destruct (call_openai_returns rt env s a b Hlib) as [r ->]
    end.
    eexists. reflexivity.
  - destruct (call_dify_agent_returns rt env s (_extract_comment_text line) Hlib)
      as [r ->].
    eexists. reflexivity.
  - destruct (call_coze_agent_returns rt env s (_extract_comment_text line) Hlib)
      as [r ->].
    eexists. reflexivity.
  - eexists. reflexivity.
Qed.

(** X7. A worker run emits at most one signal, and a reply it emits is
    never the empty string. When the bridge delivers and the libraries fail
    only with [Exception]s, it emits exactly one signal, a reply, and
    returns. When emitting the reply raises an [Exception] and the error
    signal goes through, the one signal is the error "AI 回复失败: ..."
    carrying the exception's text. *)
Theorem worker_run_signals
    (rt : Runtime) (env : Env) (comment_line : str) (s : AIReplyManager) :
  let '(_, out, r) := _worker_run rt env comment_line s in
  (List.length out <= 1)%nat
  /\ (forall text, In (reply_signal text) out -> text <> [])
  /\ (bridge_delivers env -> library_failures env ->
      exists text, out = [reply_signal text] /\ r = Ok tt)
  /\ (forall reply e,
        _worker_reply rt env s comment_line = Ok reply ->
        emit env (reply_signal reply) = Raise e -> is_Exception e = true ->
        emit env (error_signal (lit "AI 回复失败: " ++ message e)) = Ok tt ->
        out = [error_signal (lit "AI 回复失败: " ++ message e)] /\ r = Ok tt).
Proof.
  pose proof (worker_reply_not_empty rt env s comment_line) as Hne.
  pose proof (worker_reply_returns rt env s comment_line) as Hret.
  unfold _worker_run, M_try_finally, M_try_except, M_bind, self, lift,
    emit_signal, assign.
  destruct (_worker_reply rt env s comment_line) as [reply | e]; simpl.
  - (* the reply was computed *)
    destruct (emit env (reply_signal reply)) as [[] | e] eqn:Hemit; simpl.
    + split; [lia |]. split; [| split].
      * intros text [Heq | []]. injection Heq as <-. apply Hne. reflexivity.
      * intros _ _. exists reply. split; reflexivity.
      * intros reply' e' Hreply He'. congruence.
    + assert (Hbridge : bridge_delivers env -> False).
      { intros Hb. rewrite Hb in Hemit. discriminate. }
      destruct (is_Exception e) eqn:Hcls; simpl;
        [destruct (emit env (error_signal _))
           as [[] | e2] eqn:Herr; simpl |];
        (split; [lia |]; split; [| split]);
        try (intros text Hin; simpl in Hin; intuition discriminate);
        try (intros Hb; destruct (Hbridge Hb));
        intros reply' e' Hreply He' Hcls' Herr';
        injection Hreply as <-; rewrite Hemit in He'; injection He' as <-;
        first [split; reflexivity | congruence].
  - (* computing the reply raised *)
    assert (Hlib : library_failures env -> False).
    { intros Hlib. destruct (Hret Hlib) as [reply Hreply]. discriminate. }
    destruct (is_Exception e) eqn:Hcls; simpl;
      [destruct (emit env (error_signal _))
         as [[] | e2] eqn:Herr; simpl |];
      (split; [lia |]; split; [| split]);
      try (intros text Hin; simpl in Hin; intuition discriminate);
      try (intros _ Hl; destruct (Hlib Hl));
      intros reply' e' Hreply; discriminate.
Qed.

Lemma worker_run_signals_witness :
  let '(_, out, r) :=
    _worker_run Sample.rt Sample.offline (lit "a: hi") Sample.configured in
  (List.length out <= 1)%nat
  /\ (forall text, In (reply_signal text) out -> text <> [])
  /\ (exists text, out = [reply_signal text] /\ r = Ok tt).
Proof.
  pose proof (worker_run_signals Sample.rt Sample.offline (lit "a: hi")
                Sample.configured) as H.
  destruct (_worker_run Sample.rt Sample.offline (lit "a: hi") Sample.configured)
    as [[s' out] r].
  destruct H as [Hone [Hne [Hgood _]]].
  split; [exact Hone |]. split; [exact Hne |].
  apply Hgood.
  - intros sig. reflexivity.
  - split; intros; reflexivity.
Defined.

(** An empty reply from the SDK goes out as the placeholder. *)
Example worker_run_placeholder :
  _worker_run Sample.rt
    {| chat_completions_create := fun _ _ _ => Ok [Some (lit "  ")];
       http_post := fun _ _ _ _ => Raise Sample.ConnectError;
       emit := fun _ => Ok tt |}
    (lit "a: hi") (set_mode (lit "openai") Sample.configured)
  = (with_worker_active false (set_mode (lit "openai") Sample.configured),
     [reply_signal (lit "[AI] （无回复）")], Ok tt).
Proof. vm_compute. reflexivity. Qed.

(** ** Modes and the Echo fallback *)

Lemma str_eqb_eq a b : str_eqb a b = true <-> a = b.
Proof.
  revert b. induction a as [| x a IH]; intros [| y b]; simpl;
    try (split; [discriminate | discriminate]).
  - split; reflexivity.
  - unfold char_eqb. rewrite andb_true_iff, N.eqb_eq, IH.
    split; [intros [-> ->]; reflexivity | intros H; injection H as -> ->; split; reflexivity].
Qed.

Lemma str_eqb_neq a b : a <> b -> str_eqb a b = false.
Proof.
  intros Hne. destruct (str_eqb a b) eqn:H; [| reflexivity].
  apply str_eqb_eq in H. contradiction.
Qed.

Lemma echo_reply_kept text :
  (if negb (truthy_str (lit "AI(Echo): " ++ text))
   then lit "[AI] （无回复）" else lit "AI(Echo): " ++ text)
  = lit "AI(Echo): " ++ text.
Proof. reflexivity. Qed.

(** X8. [set_mode] keeps the three backend names and turns every other
    string into "echo"; after such a call the worker's reply is the Echo of
    the comment text, whatever the credentials and the network are. *)
Theorem set_mode_normalises
    (rt : Runtime) (env : Env) (s : AIReplyManager) (m line : str) :
  mode (set_mode (lit "openai") s) = openai
  /\ mode (set_mode (lit "dify") s) = dify
  /\ mode (set_mode (lit "coze") s) = coze
  /\ (m <> lit "openai" -> m <> lit "dify" -> m <> lit "coze" ->
      mode (set_mode m s) = echo
      /\ _worker_reply rt env (set_mode m s) line
         = Ok (lit "AI(Echo): " ++ _extract_comment_text line)).
Proof.
  split; [reflexivity |]. split; [reflexivity |]. split; [reflexivity |].
  intros H1 H2 H3.
  assert (Hmode : mode (set_mode m s) = echo).
  { unfold set_mode. simpl.
    rewrite (str_eqb_neq _ _ H1), (str_eqb_neq _ _ H2), (str_eqb_neq _ _ H3).
    reflexivity. }
  split; [exact Hmode |].
  unfold _worker_reply, _build_prompts. cbv beta iota zeta.
  rewrite Hmode. unfold bind. rewrite echo_reply_kept. reflexivity.
Qed.

Lemma set_mode_normalises_witness :
  mode (set_mode (lit "openai") init) = openai
  /\ mode (set_mode (lit "dify") init) = dify
  /\ mode (set_mode (lit "coze") init) = coze
  /\ mode (set_mode (lit "OpenAI") init) = echo
  /\ _worker_reply Sample.rt Sample.offline (set_mode (lit "OpenAI") init)
       (lit "alice: nice stream")
     = Ok (lit "AI(Echo): " ++ _extract_comment_text (lit "alice: nice stream")).
Proof.
  destruct (set_mode_normalises Sample.rt Sample.offline init (lit "OpenAI")
              (lit "alice: nice stream")) as [H1 [H2 [H3 H4]]].
  split; [exact H1 |]. split; [exact H2 |]. split; [exact H3 |].
  apply H4; vm_compute; discriminate.
Defined.

Lemma strip_prefix_app p r : strip_prefix p (p ++ r) = Some r.
Proof.
  induction p as [| c p IH]; simpl; [reflexivity |].
  unfold char_eqb. rewrite N.eqb_refl. exact IH.
Qed.

Lemma replace_from_skip old new a b :
  replace_from old new (List.length a) (a ++ b) = replace_from old new 0 b.
Proof.
  induction a as [| c a IH]; simpl; [reflexivity | exact IH].
Qed.

Lemma replace_from_absent old new s :
  contains s old = false -> replace_from old new 0 s = s.
Proof.
  induction s as [| c s IH]; simpl; [reflexivity |].
  intros H. apply orb_false_iff in H as [Hhere Hlater].
  rewrite Hhere. f_equal. apply IH, Hlater.
Qed.

(** Removing a prefix that does not occur again gives back the rest. *)
Lemma replace_prefix old text :
  old <> [] -> contains text old = false -> replace (old ++ text) old [] = text.
Proof.
  intros Hold Habsent. destruct old as [| o old]; [contradiction |].
  unfold replace. simpl app. simpl replace_from.
  unfold startswith. simpl strip_prefix. unfold char_eqb. rewrite N.eqb_refl.
  rewrite strip_prefix_app. simpl app. simpl List.length. rewrite Nat.sub_0_r.
  rewrite replace_from_skip. apply replace_from_absent, Habsent.
Qed.

Lemma extract_comment_text_stripped line :
  strip (_extract_comment_text line) = _extract_comment_text line.
Proof.
  unfold _extract_comment_text.
  destruct (split1 line (lit ":")) as [| a [| b [| c l]]]; apply strip_idempotent.
Qed.

(** X9. A network backend whose required configuration is missing makes no
    request and answers with the Echo of the extracted comment text: in
    dify and coze mode always, and in openai mode whenever the comment text
    does not itself contain the prompt prefix "观众评论：" (which
    [_call_openai] cuts out of the user prompt to recover the text). *)
Theorem missing_config_degrades_to_echo
    (rt : Runtime) (env : Env) (s : AIReplyManager) (line : str) :
  (mode s = dify ->
   DifyConfig.endpoint (dify_cfg s) = [] \/ DifyConfig.api_key (dify_cfg s) = [] ->
   _worker_reply rt env s line = Ok (lit "AI(Echo): " ++ _extract_comment_text line))
  /\ (mode s = coze ->
      CozeConfig.api_key (coze_cfg s) = [] \/ CozeConfig.bot_id (coze_cfg s) = [] ->
      _worker_reply rt env s line = Ok (lit "AI(Echo): " ++ _extract_comment_text line))
  /\ (mode s = openai ->
      OpenAIConfig.base_url (openai_cfg s) = []
      \/ OpenAIConfig.api_key (openai_cfg s) = []
      \/ OpenAIConfig.model (openai_cfg s) = []
      \/ OpenAI_imported rt = false ->
      contains (_extract_comment_text line) (lit "观众评论：") = false ->
      _worker_reply rt env s line = Ok (lit "AI(Echo): " ++ _extract_comment_text line)).
Proof.
  split; [| split].
  - intros Hmode Hcfg. unfold _worker_reply, _build_prompts. cbv beta iota zeta.
    rewrite Hmode, (call_dify_agent_missing_config rt env s _ Hcfg).
    unfold bind. rewrite echo_reply_kept. reflexivity.
  - intros Hmode Hcfg. unfold _worker_reply, _build_prompts. cbv beta iota zeta.
    rewrite Hmode, (call_coze_agent_missing_config rt env s _ Hcfg).
    unfold bind. rewrite echo_reply_kept. reflexivity.
  - intros Hmode Hcfg Habsent. unfold _worker_reply, _build_prompts.
    cbv beta iota zeta.
    rewrite Hmode, (call_openai_missing_config rt env s _ _ Hcfg).
    rewrite replace_prefix; [| vm_compute; discriminate | exact Habsent].
    rewrite extract_comment_text_stripped.
    unfold bind. rewrite echo_reply_kept. reflexivity.
Qed.

Lemma missing_config_degrades_to_echo_witness :
  _worker_reply Sample.rt Sample.offline (set_mode (lit "dify") init)
    (lit "alice: nice stream")
  = Ok (lit "AI(Echo): " ++ _extract_comment_text (lit "alice: nice stream"))
  /\ _worker_reply Sample.rt Sample.offline (set_mode (lit "coze") init)
       (lit "alice: nice stream")
     = Ok (lit "AI(Echo): " ++ _extract_comment_text (lit "alice: nice stream"))
  /\ _worker_reply Sample.rt Sample.offline Sample.openai_no_key
       (lit "alice: nice stream")
     = Ok (lit "AI(Echo): " ++ _extract_comment_text (lit "alice: nice stream")).
Proof.
  split; [| split].
  - destruct (missing_config_degrades_to_echo Sample.rt Sample.offline
                (set_mode (lit "dify") init) (lit "alice: nice stream"))
      as [H _].
    apply H; [reflexivity | left; reflexivity].
  - destruct (missing_config_degrades_to_echo Sample.rt Sample.offline
                (set_mode (lit "coze") init) (lit "alice: nice stream"))
      as [_ [H _]].
    apply H; [reflexivity | left; reflexivity].
  - destruct (missing_config_degrades_to_echo Sample.rt Sample.offline
                Sample.openai_no_key (lit "alice: nice stream"))
      as [_ [_ H]].
    apply H;
      [reflexivity | right; left; vm_compute; reflexivity | vm_compute; reflexivity].
Defined.

(** In openai mode a comment that contains the prompt prefix loses it in
    the Echo; in echo mode it does not. *)
Example openai_echo_cuts_prefix :
  _worker_reply Sample.rt Sample.offline Sample.openai_no_key
    (lit "alice: 观众评论：hi")
  = Ok (lit "AI(Echo): hi")
  /\ _worker_reply Sample.rt Sample.offline init (lit "alice: 观众评论：hi")
     = Ok (lit "AI(Echo): 观众评论：hi").
Proof. split; vm_compute; reflexivity. Qed.

(** X10. Credentials that are blank once stripped count as missing: after
    [config_openai], [config_dify] or [config_coze] with such a key (or
    endpoint, or bot id), the backend call makes no request and returns the
    Echo fallback. *)
Theorem blank_credentials_are_missing
    (rt : Runtime) (env : Env) (s : AIReplyManager)
    (system_prompt user_prompt text a b c : str) (endpoint : option str) :
  (strip a = [] \/ strip b = [] \/ strip c = [] ->
   _call_openai rt env (config_openai a b c s) system_prompt user_prompt
   = Ok (lit "AI(Echo): " ++ strip (replace user_prompt (lit "观众评论：") [])))
  /\ (strip a = [] \/ strip b = [] ->
      _call_dify_agent rt env (config_dify a b c s) text
      = Ok (lit "AI(Echo): " ++ text))
  /\ (strip a = [] \/ strip b = [] ->
      _call_coze_agent rt env (config_coze a b c endpoint s) text
      = Ok (lit "AI(Echo): " ++ text)).
Proof.
  split; [| split].
  - intros H. apply call_openai_missing_config. simpl.
    destruct H as [H | [H | H]]; auto.
  - intros H. apply call_dify_agent_missing_config. simpl. exact H.
  - intros H. apply call_coze_agent_missing_config. simpl. exact H.
Qed.

Lemma blank_credentials_are_missing_witness :
  _call_openai Sample.rt Sample.offline
    (config_openai (lit "https://api.example/v1") (lit "  ") (lit "gpt") init)
    default_system_prompt (lit "观众评论：hi")
  = Ok (lit "AI(Echo): " ++ strip (replace (lit "观众评论：hi") (lit "观众评论：") []))
  /\ _call_dify_agent Sample.rt Sample.offline
       (config_dify (lit "https://dify.example/v1") (lit " ") (lit "u") init)
       (lit "hi")
     = Ok (lit "AI(Echo): " ++ lit "hi")
  /\ _call_coze_agent Sample.rt Sample.offline
       (config_coze (lit " ") (lit "bot") (lit "u") None init) (lit "hi")
     = Ok (lit "AI(Echo): " ++ lit "hi").
Proof.
  split; [| split].
  - destruct (blank_credentials_are_missing Sample.rt Sample.offline init
                default_system_prompt (lit "观众评论：hi") (lit "hi")
                (lit "https://api.example/v1") (lit "  ") (lit "gpt") None)
      as [H _].
    apply H. right. left. vm_compute. reflexivity.
  - destruct (blank_credentials_are_missing Sample.rt Sample.offline init
                default_system_prompt (lit "观众评论：hi") (lit "hi")
                (lit "https://dify.example/v1") (lit " ") (lit "u") None)
      as [_ [H _]].
    apply H. right. vm_compute. reflexivity.
  - destruct (blank_credentials_are_missing Sample.rt Sample.offline init
                default_system_prompt (lit "观众评论：hi") (lit "hi")
                (lit " ") (lit "bot") (lit "u") None)
      as [_ [_ H]].
    apply H. left. vm_compute. reflexivity.
Defined.

(** ** Language detection *)

Lemma ascii_has_no_cjk text : is_ascii text = true -> existsb is_cjk text = false.
Proof.
  induction text as [| ch text IH]; simpl; [reflexivity |].
  intros H. apply andb_true_iff in H as [Hch Htext].
  rewrite (IH Htext), orb_false_r. unfold is_cjk.
  apply N.ltb_lt in Hch.
  destruct (N.leb_spec 0x4E00 ch) as [Hbig | _]; [lia | reflexivity].
Qed.

(** X11. [_detect_lang] answers "zh" or "en" and nothing else. When
    langdetect gives a code, that code decides ("zh..." or not) and the text
    is not scanned; when langdetect is not installed or fails with an
    [Exception], the answer is "zh" exactly when the text has a code point
    in U+4E00..U+9FFF -- so "en" for every all-ASCII text. *)
Theorem detect_lang_answers (detect : option (str -> result str)) (text : str) :
  (forall lang, _detect_lang detect text = Ok lang ->
                lang = lit "zh" \/ lang = lit "en")
  /\ (forall d code, detect = Some d -> d text = Ok code ->
        _detect_lang detect text
        = Ok (if startswith code (lit "zh") then lit "zh" else lit "en"))
  /\ (detect = None
      \/ (exists d e, detect = Some d /\ d text = Raise e /\ is_Exception e = true) ->
      _detect_lang detect text
      = Ok (if existsb is_cjk text then lit "zh" else lit "en")
      /\ (is_ascii text = true -> _detect_lang detect text = Ok (lit "en"))).
Proof.
  split; [| split].
  - intros lang. unfold _detect_lang.
    destruct detect as [d |].
    + destruct (d text) as [code | e]; simpl.
      * destruct (startswith code (lit "zh")); intros H; injection H as <-; auto.
      * destruct (is_Exception e); [| discriminate].
        destruct (existsb is_cjk text); intros H; injection H as <-; auto.
    + destruct (existsb is_cjk text); intros H; injection H as <-; auto.
  - intros d code -> Hcode. unfold _detect_lang. rewrite Hcode. reflexivity.
  - intros Hfallback.
    assert (Hscan : _detect_lang detect text
                    = Ok (if existsb is_cjk text then lit "zh" else lit "en")).
    { destruct Hfallback as [-> | [d [e [-> [He Hcls]]]]]; unfold _detect_lang.
      - reflexivity.
      - rewrite He. simpl. rewrite Hcls. reflexivity. }
    split; [exact Hscan |].
    intros Hascii. rewrite Hscan, (ascii_has_no_cjk text Hascii). reflexivity.
Qed.

Lemma detect_lang_answers_witness :
  _detect_lang (Some (fun _ => Ok (lit "ja"))) (lit "你好")
  = Ok (if startswith (lit "ja") (lit "zh") then lit "zh" else lit "en")
  /\ _detect_lang None (lit "你好")
     = Ok (if existsb is_cjk (lit "你好") then lit "zh" else lit "en")
  /\ _detect_lang None (lit "nice stream") = Ok (lit "en").
Proof.
  split; [| split].
  - destruct (detect_lang_answers (Some (fun _ => Ok (lit "ja"))) (lit "你好"))
      as [_ [H _]].
    apply (H (fun _ => Ok (lit "ja")) (lit "ja")); reflexivity.
  - destruct (detect_lang_answers None (lit "你好")) as [_ [_ H]].
    apply H. left. reflexivity.
  - destruct (detect_lang_answers None (lit "nice stream")) as [_ [_ H]].
    apply H; [left; reflexivity | vm_compute; reflexivity].
Defined.

(** With langdetect answering "ja", a Chinese text counts as "en". *)
Example detect_lang_follows_langdetect :
  _detect_lang (Some (fun _ => Ok (lit "ja"))) (lit "你好") = Ok (lit "en")
  /\ _detect_lang None (lit "你好") = Ok (lit "zh").
Proof. split; vm_compute; reflexivity. Qed.

(* ===================================================================== *)
(** * Further properties of the fetcher *)
(* ===================================================================== *)

(** ** From a comment event to the queue *)

Lemma cut_first c u rest :
  ~ In c u -> cut [c] (u ++ c :: rest) = Some (u, rest).
Proof.
  induction u as [| x u IH]; intros Hnotin; simpl.
  - unfold char_eqb. rewrite N.eqb_refl. reflexivity.
  - assert (Hx : char_eqb c x = false).
    { unfold char_eqb. apply N.eqb_neq. intros Heq. apply Hnotin. left.
      symmetry. exact Heq. }
    rewrite Hx. rewrite IH; [reflexivity |].
    intros Hin. apply Hnotin. right. exact Hin.
Qed.

Lemma or_else_not_empty a b : b <> [] -> TikTok.or_else a b <> [].
Proof.
  intros Hb. destruct a as [[| c s] |]; simpl;
    first [exact Hb | intros H; discriminate H].
Qed.

Lemma comment_username_not_empty event : TikTok.comment_username event <> [].
Proof.
  unfold TikTok.comment_username.
  apply or_else_not_empty, or_else_not_empty. discriminate.
Qed.

(** X12. The line that [_on_comment] builds from an event and the text that
    [_extract_comment_text] reads back from it: when the user name
    (nickname, else unique id, else "?") has no colon, the text read back is
    the comment, stripped. *)
Theorem comment_message_round_trip (event : TikTok.CommentEvent) :
  ~ In 58%N (TikTok.comment_username event) ->
  _extract_comment_text (TikTok.comment_message event)
  = strip (TikTok.comment_text event).
Proof.
  intros Hcolon. unfold _extract_comment_text, split1, TikTok.comment_message.
  change (lit ":") with [58%N].
  change (lit ": " ++ TikTok.comment_text event)
    with (58%N :: 32%N :: TikTok.comment_text event).
  rewrite (cut_first 58%N _ _ Hcolon). reflexivity.
Qed.

Lemma comment_message_round_trip_witness :
  _extract_comment_text
    (TikTok.comment_message
       {| TikTok.user_nickname := Some [];
          TikTok.user_unique_id := Some (lit "alice");
          TikTok.comment := Some (lit " nice stream ") |})
  = strip
      (TikTok.comment_text
         {| TikTok.user_nickname := Some [];
            TikTok.user_unique_id := Some (lit "alice");
            TikTok.comment := Some (lit " nice stream ") |}).
Proof.
  apply (comment_message_round_trip
           {| TikTok.user_nickname := Some [];
              TikTok.user_unique_id := Some (lit "alice");
              TikTok.comment := Some (lit " nice stream ") |}).
  vm_compute. intuition discriminate.
Defined.

(** A colon in the nickname moves the cut: the rest of the nickname ends
    up in the text. *)
Example comment_message_colon_in_nickname :
  _extract_comment_text
    (TikTok.comment_message
       {| TikTok.user_nickname := Some (lit "a:b");
          TikTok.user_unique_id := None;
          TikTok.comment := Some (lit "hi") |})
  = lit "b: hi".
Proof. vm_compute. reflexivity. Qed.

Lemma startswith_single c rest b : startswith (c :: rest) [b] = char_eqb b c.
Proof. unfold startswith. simpl. destruct (char_eqb b c); reflexivity. Qed.

(** X13. [add_comment] admits the line built by [_on_comment] exactly when
    the user name does not start with "[": a comment of a viewer whose
    nickname starts with "[" is taken for a system message and never
    queued; every other comment, even an empty one, is appended. *)
Theorem comment_message_admission
    (event : TikTok.CommentEvent) (now : timestamp) (s : AIReplyManager) :
  admitted (TikTok.comment_message event)
  = negb (startswith (TikTok.comment_username event) (lit "["))
  /\ add_comment now (TikTok.comment_message event) s
     = if startswith (TikTok.comment_username event) (lit "[")
       then s
       else with_comment_q
              (deque_append maxlen (_comment_q s)
                 (now, TikTok.comment_message event)) s.
Proof.
  pose proof (comment_username_not_empty event) as Hname.
  unfold admitted, add_comment, TikTok.comment_message.
  destruct (TikTok.comment_username event) as [| c name]; [contradiction |].
  change (lit "[") with [91%N].
  change ((c :: name) ++ lit ": " ++ TikTok.comment_text event)
    with (c :: (name ++ lit ": " ++ TikTok.comment_text event)).
  rewrite !startswith_single. cbn [truthy_str negb andb orb].
  destruct (char_eqb 91%N c); split; reflexivity.
Qed.

Example comment_message_bracket_nickname :
  add_comment Sample.t1
    (TikTok.comment_message
       {| TikTok.user_nickname := Some (lit "[VIP] bob");
          TikTok.user_unique_id := Some (lit "bob");
          TikTok.comment := Some (lit "hello") |}) Sample.hello_filter
  = Sample.hello_filter.
Proof. vm_compute. reflexivity. Qed.

(** X14. What the fetcher itself says through the comment callback -- the
    "[系统] ..." lines of [_emit_info] and the "[⚠️] ..." lines that
    [_emit_error] falls back to -- is never queued by [add_comment]. *)
Theorem fetcher_notices_not_queued
    (f : TikTok.TikTokCommentFetcher) (msg line : str)
    (now : timestamp) (s : AIReplyManager) :
  In (TikTok.call_comment_callback line) (fst (TikTok._emit_info f msg))
  \/ In (TikTok.call_comment_callback line) (fst (TikTok._emit_error f msg)) ->
  admitted line = false /\ add_comment now line s = s.
Proof.
  intros Hin.
  assert (Hline : line = lit "[系统] " ++ msg \/ line = lit "[⚠️] " ++ msg).
  { destruct Hin as [Hin | Hin].
    - left. unfold TikTok._emit_info, TikTok.T_bind in Hin.
      destruct (TikTok.comment_callback f) as [cb |]; simpl in Hin.
      + destruct Hin as [H | [H | []]]; [discriminate |].
        injection H as <-. reflexivity.
      + destruct Hin as [H | []]. discriminate.
    - right. unfold TikTok._emit_error, TikTok.T_bind in Hin.
      destruct (TikTok.error_callback f) as [ecb |]; simpl in Hin.
      + destruct Hin as [H | [H | []]]; discriminate.
      + destruct (TikTok.comment_callback f) as [cb |]; simpl in Hin.
        * destruct Hin as [H | [H | []]]; [discriminate |].
          injection H as <-. reflexivity.
        * destruct Hin as [H | []]. discriminate. }
  unfold admitted, add_comment.
  destruct Hline as [-> | ->]; split; reflexivity.
Qed.

Lemma fetcher_notices_not_queued_witness :
  admitted (lit "[系统] 已停止监听") = false
  /\ add_comment Sample.t1 (lit "[系统] 已停止监听") Sample.hello_filter
     = Sample.hello_filter.
Proof.
  apply (fetcher_notices_not_queued Sample.idle_fetcher (lit "已停止监听")
           (lit "[系统] 已停止监听") Sample.t1 Sample.hello_filter).
  left. vm_compute. right. left. reflexivity.
Defined.

(** X15. [_on_comment] hands the callback exactly the built line. When the
    callback raises an [Exception], the handler reports "处理评论出错: ..."
    through [_emit_error], and with an error callback that returns it ends
    normally: the exception does not reach the event loop. Without a
    comment callback nothing happens at all. *)
Theorem on_comment_contains_callback_failure
    (f : TikTok.TikTokCommentFetcher) (event : TikTok.CommentEvent) :
  (TikTok.comment_callback f = None -> TikTok._on_comment f event = ([], Ok tt))
  /\ (forall cb, TikTok.comment_callback f = Some cb ->
        cb (TikTok.comment_message event) = Ok tt ->
        TikTok._on_comment f event
        = ([TikTok.call_comment_callback (TikTok.comment_message event)], Ok tt))
  /\ (forall cb e ecb,
        TikTok.comment_callback f = Some cb ->
        cb (TikTok.comment_message event) = Raise e -> is_Exception e = true ->
        TikTok.error_callback f = Some ecb ->
        ecb (lit "处理评论出错: " ++ message e) = Ok tt ->
        TikTok._on_comment f event
        = ([TikTok.call_comment_callback (TikTok.comment_message event);
            TikTok.log_error (lit "处理评论出错: " ++ message e);
            TikTok.call_error_callback (lit "处理评论出错: " ++ message e)],
           Ok tt)).
Proof.
  unfold TikTok._on_comment, TikTok.T_try_except.
  split; [| split].
  - intros ->. reflexivity.
  - intros cb -> ->. reflexivity.
  - intros cb e ecb -> -> Hcls Hecb Hreturns. rewrite Hcls.
    unfold TikTok._emit_error, TikTok.T_bind. rewrite Hecb, Hreturns. reflexivity.
Qed.

Lemma on_comment_contains_callback_failure_witness :
  TikTok._on_comment
    (TikTok.with_running true
       {| TikTok.unique_id := lit "streamer";
          TikTok.comment_callback := Some (fun _ => Raise Sample.ConnectError);
          TikTok.error_callback := Some (fun _ => Ok tt);
          TikTok._thread := None; TikTok._loop := None;
          TikTok._running := false; TikTok._disconnect_grace := 5.0 |})
    {| TikTok.user_nickname := Some (lit "alice"); TikTok.user_unique_id := None;
       TikTok.comment := Some (lit "hi") |}
  = ([TikTok.call_comment_callback
        (TikTok.comment_message
           {| TikTok.user_nickname := Some (lit "alice");
              TikTok.user_unique_id := None; TikTok.comment := Some (lit "hi") |});
      TikTok.log_error (lit "处理评论出错: " ++ message Sample.ConnectError);
      TikTok.call_error_callback (lit "处理评论出错: " ++ message Sample.ConnectError)],
     Ok tt).
Proof.
  destruct (on_comment_contains_callback_failure
              (TikTok.with_running true
                 {| TikTok.unique_id := lit "streamer";
                    TikTok.comment_callback := Some (fun _ => Raise Sample.ConnectError);
                    TikTok.error_callback := Some (fun _ => Ok tt);
                    TikTok._thread := None; TikTok._loop := None;
                    TikTok._running := false; TikTok._disconnect_grace := 5.0 |})
              {| TikTok.user_nickname := Some (lit "alice");
                 TikTok.user_unique_id := None; TikTok.comment := Some (lit "hi") |})
    as [_ [_ H]].
  apply (H (fun _ => Raise Sample.ConnectError) Sample.ConnectError (fun _ => Ok tt));
    reflexivity.
Defined.

(** With no error callback the report goes to the failing comment
    callback, and its exception leaves the handler. *)
Example on_comment_failure_escapes :
  snd (TikTok._on_comment
         {| TikTok.unique_id := lit "streamer";
            TikTok.comment_callback := Some (fun _ => Raise Sample.ConnectError);
            TikTok.error_callback := None;
            TikTok._thread := None; TikTok._loop := None;
            TikTok._running := true; TikTok._disconnect_grace := 5.0 |}
         {| TikTok.user_nickname := Some (lit "alice"); TikTok.user_unique_id := None;
            TikTok.comment := Some (lit "hi") |})
  = Raise Sample.ConnectError.
Proof. vm_compute. reflexivity. Qed.

(** ** The identifier *)

Lemma lstrip_by_all drop pad s :
  forallb drop pad = true -> lstrip_by drop (pad ++ s) = lstrip_by drop s.
Proof.
  induction pad as [| c pad IH]; simpl; [reflexivity |].
  intros H. apply andb_true_iff in H as [-> Hpad]. apply IH, Hpad.
Qed.

(** Whitespace around a string that has none at its ends is what [strip]
    removes. *)
Lemma strip_padded before s after :
  forallb isspace before = true -> forallb isspace after = true ->
  strip s = s -> strip (before ++ s ++ after) = s.
Proof.
  intros Hbefore Hafter Hclean.
  pose proof (strip_front s) as Hfront. pose proof (strip_back s) as Hback.
  rewrite Hclean in Hfront, Hback.
  unfold strip, rstrip_by. rewrite lstrip_by_all by exact Hbefore.
  destruct s as [| c w].
  - simpl app. replace (lstrip_by isspace after) with (@nil char).
    + reflexivity.
    + rewrite <- (app_nil_r after), lstrip_by_all by exact Hafter. reflexivity.
  - assert (Hc : isspace c = false).
    { simpl in Hfront. destruct (isspace c); [| reflexivity].
      exfalso.
      destruct (lstrip_by_split isspace w) as [dropped [Hw _]].
      apply (f_equal (@List.length char)) in Hfront.
      apply (f_equal (@List.length char)) in Hw.
      rewrite length_app in Hw. simpl in Hfront. lia. }
    simpl app. simpl lstrip_by. rewrite Hc.
    change (c :: w ++ after) with ((c :: w) ++ after).
    rewrite rev_app_distr, lstrip_by_all
      by (rewrite forallb_rev; exact Hafter).
    rewrite Hback. apply rev_involutive.
Qed.

(** X16. [_normalize_unique_id] gives the same identifier for "name" and
    "@name", with or without whitespace around them, whenever [name] has no
    whitespace at its ends and does not itself start with "@". *)
Theorem normalize_unique_id_at_sign (before name after : str) :
  forallb isspace before = true -> forallb isspace after = true ->
  strip name = name -> startswith name (lit "@") = false ->
  TikTok._normalize_unique_id (before ++ name ++ after) = name
  /\ TikTok._normalize_unique_id (before ++ (lit "@" ++ name) ++ after) = name.
Proof.
  intros Hbefore Hafter Hclean Hat. unfold TikTok._normalize_unique_id. split.
  - rewrite (strip_padded before name after Hbefore Hafter Hclean), Hat. reflexivity.
  - change (lit "@" ++ name) with (64%N :: name).
    assert (Hclean' : strip (64%N :: name) = 64%N :: name).
    { pose proof (strip_back name) as Hback. rewrite Hclean in Hback.
      unfold strip, rstrip_by.
      change (lstrip_by isspace (64%N :: name)) with (64%N :: name).
      simpl rev.
      destruct (rev name) as [| c w] eqn:Hrev.
      - apply (f_equal (@rev char)) in Hrev. rewrite rev_involutive in Hrev.
        subst name. reflexivity.
      - assert (Hc : isspace c = false).
        { simpl in Hback. destruct (isspace c); [| reflexivity].
          exfalso.
          destruct (lstrip_by_split isspace w) as [dropped [Hw _]].
          apply (f_equal (@List.length char)) in Hback.
          apply (f_equal (@List.length char)) in Hw.
          rewrite length_app in Hw. simpl in Hback. lia. }
        change ((c :: w) ++ [64%N]) with (c :: (w ++ [64%N])).
        rewrite (lstrip_by_keeps isspace (c :: w ++ [64%N]) Hc).
        change (c :: w ++ [64%N]) with ((c :: w) ++ [64%N]).
        rewrite <- Hrev, rev_app_distr, rev_involutive. reflexivity. }
    rewrite (strip_padded before (64%N :: name) after Hbefore Hafter Hclean').
    reflexivity.
Qed.

Lemma normalize_unique_id_at_sign_witness :
  TikTok._normalize_unique_id (lit "  " ++ lit "streamer" ++ lit " ") = lit "streamer"
  /\ TikTok._normalize_unique_id
       (lit "  " ++ (lit "@" ++ lit "streamer") ++ lit " ") = lit "streamer".
Proof.
  apply (normalize_unique_id_at_sign (lit "  ") (lit "streamer") (lit " "));
    vm_compute; reflexivity.
Defined.

(** Only one "@" goes, and whitespace after it stays. *)
Example normalize_unique_id_edges :
  TikTok._normalize_unique_id (lit "@@streamer") = lit "@streamer"
  /\ TikTok._normalize_unique_id (lit "@ streamer") = lit " streamer".
Proof. split; vm_compute; reflexivity. Qed.

(** ** Starting and stopping *)

(** X17. [start()] on an idle fetcher marks it running and starts one
    thread; a second [start()] is refused: it reports "监听已在运行", starts
    no thread and leaves the fetcher as the first call left it. *)
Theorem start_refused_while_running
    (thread1 thread2 : nat) (f : TikTok.TikTokCommentFetcher) :
  TikTok._running f = false ->
  let '(f1, _, started1) := TikTok.start thread1 (Ok tt) f in
  let '(f2, (effects2, _), started2) := TikTok.start thread2 (Ok tt) f1 in
  TikTok.is_running f1 = true
  /\ started1 = Some thread1
  /\ TikTok._thread f1 = Some thread1
  /\ f2 = f1
  /\ started2 = None
  /\ In (TikTok.log_error (lit "监听已在运行")) effects2.
Proof.
  intros Hidle. unfold TikTok.start. rewrite Hidle. simpl.
  unfold TikTok._emit_error, TikTok.T_bind. simpl.
  destruct (TikTok.error_callback f); [| destruct (TikTok.comment_callback f)];
    simpl; repeat split; left; reflexivity.
Qed.

Lemma start_refused_while_running_witness :
  let '(f1, _, started1) := TikTok.start 1 (Ok tt) Sample.idle_fetcher in
  let '(f2, (effects2, _), started2) := TikTok.start 2 (Ok tt) f1 in
  TikTok.is_running f1 = true
  /\ started1 = Some 1%nat
  /\ TikTok._thread f1 = Some 1%nat
  /\ f2 = f1
  /\ started2 = None
  /\ In (TikTok.log_error (lit "监听已在运行")) effects2.
Proof.
  apply (start_refused_while_running 1 2 Sample.idle_fetcher). reflexivity.
Defined.

Lemma emit_error_returns f msg :
  TikTok.callbacks_return f -> snd (TikTok._emit_error f msg) = Ok tt.
Proof.
  intros [Hcomment Herror]. unfold TikTok._emit_error, TikTok.T_bind. simpl.
  destruct (TikTok.error_callback f) as [ecb |] eqn:He; simpl.
  - apply (Herror ecb). reflexivity.
  - destruct (TikTok.comment_callback f) as [cb |] eqn:Hc; simpl.
    + apply (Hcomment cb). reflexivity.
    + reflexivity.
Qed.


Lemma emit_info_returns f msg :
  TikTok.callbacks_return f ->
  snd (TikTok._emit_info f msg) = Ok tt
  /\ In (TikTok.log_info msg) (fst (TikTok._emit_info f msg)).
Proof.
  intros [Hcomment _]. unfold TikTok._emit_info, TikTok.T_bind. simpl.
  destruct (TikTok.comment_callback f) as [cb |] eqn:Hc; simpl.
  - split; [apply (Hcomment cb); reflexivity | left; reflexivity].
  - split; [reflexivity | left; reflexivity].
Qed.

(** X18. [stop()] on a running fetcher always ends with the fetcher marked
    stopped and the notice "已停止监听" sent, whether the disconnect could be
    scheduled or not and whether the probe returned, timed out or failed --
    provided the callbacks and the join return and the scheduling failures
    are [Exception]s. The thread, when there is one, is joined with the
    given timeout. *)
Theorem stop_always_stops
    (o : TikTok.Outside) (timeout : Q) (f : TikTok.TikTokCommentFetcher) :
  TikTok._running f = true ->
  TikTok.callbacks_return f ->
  fails_with_Exception (TikTok.run_coroutine_threadsafe o) ->
  (forall e, TikTok.fut_result o = TikTok.probe_raises e -> is_Exception e = true) ->
  TikTok.join o = Ok tt ->
  let '(f', (effects, outcome)) := TikTok.stop o timeout f in
  f' = TikTok.with_running false f
  /\ outcome = Ok tt
  /\ In (TikTok.log_info (lit "已停止监听")) effects
  /\ (forall t, TikTok._thread f = Some t -> In (TikTok.join_thread t timeout) effects).
Proof.
  intros Hrun Hcb Hsched Hprobe Hjoin.
  assert (Hcb' : TikTok.callbacks_return (TikTok.with_running false f)).
  { destruct Hcb as [H1 H2]. split; simpl; assumption. }
  destruct (emit_info_returns (TikTok.with_running false f) (lit "已停止监听") Hcb')
    as [Hinfo_ok Hinfo_in].
  unfold TikTok.stop. rewrite Hrun. simpl negb. cbv iota.
  set (scheduled :=
         match TikTok._loop f with
         | Some loop => _
         | None => _
         end).
  assert (Hsched_ok : snd scheduled = Ok tt).
  { unfold scheduled. destruct (TikTok._loop f) as [loop |]; [| reflexivity].
    unfold TikTok.T_try_except, TikTok.T_bind.
    destruct (TikTok.run_coroutine_threadsafe o) as [[] | e] eqn:Hrc; simpl.
    - destruct (TikTok.fut_result o) as [| | e] eqn:Hfr; simpl;
        try reflexivity.
      rewrite (Hprobe e eq_refl).
      pose proof (emit_error_returns f
                    (lit "停止监听调度失败: " ++ TikTok.repr_exn o e) Hcb) as Hret.
      destruct (TikTok._emit_error f _) as [out r]. simpl in *. exact Hret.
    - simpl in Hsched. rewrite Hsched.
      pose proof (emit_error_returns f
                    (lit "停止监听调度失败: " ++ TikTok.repr_exn o e) Hcb) as Hret.
      destruct (TikTok._emit_error f _) as [out r]. simpl in *. exact Hret. }
  destruct scheduled as [out1 r1]. simpl in Hsched_ok. subst r1.
  unfold TikTok.T_bind. rewrite Hjoin.
  destruct (TikTok._emit_info (TikTok.with_running false f) (lit "已停止监听"))
    as [out2 r2] eqn:Hinfo.
  simpl in Hinfo_ok, Hinfo_in. subst r2.
  destruct (TikTok._thread f) as [t |]; simpl.
  - repeat split.
    + apply in_or_app. right. exact Hinfo_in.
    + intros t' Ht. injection Ht as <-.
      apply in_or_app. left. apply in_or_app. right. left. reflexivity.
  - repeat split.
    + apply in_or_app. right. exact Hinfo_in.
    + intros t' Ht. discriminate.
Qed.

Lemma stop_always_stops_witness :
  let '(f', (effects, outcome)) :=
    TikTok.stop Sample.cooperative 5.0 Sample.live_fetcher in
  f' = TikTok.with_running false Sample.live_fetcher
  /\ outcome = Ok tt
  /\ In (TikTok.log_info (lit "已停止监听")) effects
  /\ (forall t, TikTok._thread Sample.live_fetcher = Some t ->
                In (TikTok.join_thread t 5.0) effects).
Proof.
  apply (stop_always_stops Sample.cooperative 5.0 Sample.live_fetcher).
  - reflexivity.
  - split; intros cb msg H; injection H as <-; reflexivity.
  - exact I.
  - intros e H. discriminate.
  - reflexivity.
Defined.

(** Scheduling fails: the failure is reported, and the fetcher is stopped
    all the same. *)
Example stop_scheduling_fails :
  TikTok.stop
    {| TikTok.run_coroutine_threadsafe := Raise Sample.ConnectError;
       TikTok.fut_result := TikTok.probe_done;
       TikTok.join := Ok tt;
       TikTok.repr_exn := fun e => lit "ConnectError()" |}
    5.0 Sample.live_fetcher
  = (TikTok.with_running false Sample.live_fetcher,
     ([TikTok.schedule_disconnect 1 5.0;
       TikTok.log_error (lit "停止监听调度失败: ConnectError()");
       TikTok.call_error_callback (lit "停止监听调度失败: ConnectError()");
       TikTok.join_thread 1 5.0; TikTok.log_info (lit "已停止监听");
       TikTok.call_comment_callback (lit "[系统] 已停止监听")],
      Ok tt)).
Proof. vm_compute. reflexivity. Qed.

(** ** The loop thread *)




Example run_loop_not_live :
  TikTok._run_loop Sample.not_live Sample.live_fetcher
  = (TikTok.with_running false (TikTok.with_loop (Some 7%nat) Sample.live_fetcher),
     ([TikTok.queried_is_live;
       TikTok.reported (TikTok.log_error (lit "主播当前未开播或用户名无效"));
       TikTok.reported (TikTok.call_error_callback (lit "主播当前未开播或用户名无效"));
       TikTok.loop_closed],
      Ok tt)).
Proof. vm_compute. reflexivity. Qed.

Example run_loop_connection_lost :
  TikTok._run_loop Sample.connection_lost Sample.live_fetcher
  = (TikTok.with_running false (TikTok.with_loop (Some 7%nat) Sample.live_fetcher),
     ([TikTok.queried_is_live; TikTok.connecting;
       TikTok.reported (TikTok.log_error (lit "启动监听失败"));
       TikTok.reported (TikTok.log_error (lit "启动监听失败"));
       TikTok.reported (TikTok.call_error_callback (lit "启动监听失败"));
       TikTok.loop_closed],
      Ok tt)).
Proof. vm_compute. reflexivity. Qed.

(** When [loop.close()] raises, the flag is left up. *)
Example run_loop_close_fails :
  TikTok._running
    (fst (TikTok._run_loop
            {| TikTok.new_event_loop := Ok 7%nat;
               TikTok.is_live := Ok false;
               TikTok.connect := Ok tt;
               TikTok.cancel_pending := Ok tt;
               TikTok.close := Raise Sample.ConnectError |}
            Sample.live_fetcher))
  = true.
Proof. vm_compute. reflexivity. Qed.

(* ===================================================================== *)
(** * Further properties of the backends *)
(* ===================================================================== *)

Lemma rstrip_by_all drop s pad :
  forallb drop pad = true -> rstrip_by drop (s ++ pad) = rstrip_by drop s.
Proof.
  intros Hpad. unfold rstrip_by. rewrite rev_app_distr.
  rewrite lstrip_by_all by (rewrite forallb_rev; exact Hpad). reflexivity.
Qed.

Lemma slashes_droppable n :
  forallb (fun c => existsb (char_eqb c) (lit "/")) (repeat 47%N n) = true.
Proof. induction n as [| n IH]; [reflexivity | exact IH]. Qed.

(** X20. Trailing slashes on the Dify endpoint make no difference: with a
    non-empty endpoint, [_call_dify_agent] behaves the same -- same request
    URL, same result -- however many "/" are appended to it. *)
Theorem dify_endpoint_trailing_slashes
    (rt : Runtime) (env : Env) (s : AIReplyManager) (text : str) (n : nat) :
  DifyConfig.endpoint (dify_cfg s) <> [] ->
  _call_dify_agent rt env
    (with_dify_cfg
       (dify_at (DifyConfig.endpoint (dify_cfg s) ++ repeat 47%N n) (dify_cfg s)) s)
    text
  = _call_dify_agent rt env s text.
Proof.
  intros Hne. unfold _call_dify_agent. cbn [dify_cfg with_dify_cfg dify_at
    DifyConfig.endpoint DifyConfig.api_key DifyConfig.user DifyConfig.inputs
    DifyConfig.response_mode].
  assert (Htruthy : truthy_str (DifyConfig.endpoint (dify_cfg s) ++ repeat 47%N n)
                    = truthy_str (DifyConfig.endpoint (dify_cfg s))).
  { destruct (DifyConfig.endpoint (dify_cfg s)); [contradiction | reflexivity]. }
  rewrite Htruthy.
  assert (Hurl : rstrip_chars (DifyConfig.endpoint (dify_cfg s) ++ repeat 47%N n) (lit "/")
                 = rstrip_chars (DifyConfig.endpoint (dify_cfg s)) (lit "/")).
  { unfold rstrip_chars. apply rstrip_by_all, slashes_droppable. }
  rewrite Hurl. reflexivity.
Qed.

Lemma dify_endpoint_trailing_slashes_witness :
  _call_dify_agent Sample.rt Sample.offline
    (with_dify_cfg
       (dify_at (DifyConfig.endpoint (dify_cfg Sample.configured) ++ repeat 47%N 2)
          (dify_cfg Sample.configured)) Sample.configured)
    (lit "hi")
  = _call_dify_agent Sample.rt Sample.offline Sample.configured (lit "hi").
Proof.
  apply (dify_endpoint_trailing_slashes Sample.rt Sample.offline Sample.configured
           (lit "hi") 2).
  vm_compute. discriminate.
Defined.

Lemma http_answer env data (k : json -> result str) :
  peer_answers env data ->
  forall timeout url payload headers,
    bind (http_post env timeout url payload headers) (fun r =>
    bind (Response.raise_for_status r) (fun _ =>
    bind (Response.json r) k))
    = k data.
Proof.
  intros Hpeer timeout url payload headers.
  destruct (Hpeer timeout url payload headers) as [r [-> [Hst Hjs]]].
  simpl. rewrite Hst. simpl. rewrite Hjs. reflexivity.
Qed.

(** X21. How [_call_dify_agent] reads a 2xx JSON answer of a configured
    backend: a non-empty string under "answer" is returned stripped; when
    "answer" is absent at the top level, a non-empty string under
    "data"."answer" is returned stripped; and when the document is an
    object with neither "answer" nor "data", the result is the warning
    "[AI警告] Dify 无可用 answer 字段: " followed by the document's repr. *)
Theorem dify_answer_extraction
    (rt : Runtime) (env : Env) (s : AIReplyManager) (text : str)
    (d : list (str * json)) :
  DifyConfig.endpoint (dify_cfg s) <> [] -> DifyConfig.api_key (dify_cfg s) <> [] ->
  peer_answers env (JDict d) ->
  (forall a, dict_lookup d (lit "answer") = Some (JStr a) -> a <> [] ->
     _call_dify_agent rt env s text = Ok (strip a))
  /\ (forall d2 a, dict_lookup d (lit "answer") = None ->
        dict_lookup d (lit "data") = Some (JDict d2) ->
        dict_lookup d2 (lit "answer") = Some (JStr a) -> a <> [] ->
        _call_dify_agent rt env s text = Ok (strip a))
  /\ (dict_lookup d (lit "answer") = None -> dict_lookup d (lit "data") = None ->
      _call_dify_agent rt env s text
      = Ok (lit "[AI警告] Dify 无可用 answer 字段: " ++ repr rt (JDict d))).
Proof.
  intros Hendpoint Hkey Hpeer.
  assert (Hcfg : negb (truthy_str (DifyConfig.endpoint (dify_cfg s))
                       && truthy_str (DifyConfig.api_key (dify_cfg s))) = false).
  { destruct (DifyConfig.endpoint (dify_cfg s)); [contradiction |].
    destruct (DifyConfig.api_key (dify_cfg s)); [contradiction | reflexivity]. }
  unfold _call_dify_agent. rewrite Hcfg. cbv zeta.
  rewrite (http_answer env (JDict d) _ Hpeer).
  unfold get. split; [| split].
  - intros a Ha Hne. rewrite Ha. cbn -[lit strip].
    destruct a; [contradiction | reflexivity].
  - intros d2 a Htop Hdata Ha Hne. rewrite Htop, Hdata. cbn -[lit strip].
    rewrite Ha. cbn -[lit strip].
    destruct a; [contradiction | reflexivity].
  - intros Htop Hdata. rewrite Htop, Hdata. reflexivity.
Qed.

Lemma dify_answer_extraction_witness :
  _call_dify_agent Sample.rt
    (Sample.answers (JDict [(lit "answer", JStr (lit " Thanks! "))]))
    Sample.configured (lit "great show")
  = Ok (strip (lit " Thanks! ")).
Proof.
  destruct (dify_answer_extraction Sample.rt
              (Sample.answers (JDict [(lit "answer", JStr (lit " Thanks! "))]))
              Sample.configured (lit "great show")
              [(lit "answer", JStr (lit " Thanks! "))]) as [H _].
  - vm_compute. discriminate.
  - vm_compute. discriminate.
  - intros timeout url payload headers. eexists. repeat split.
  - apply (H (lit " Thanks! ")); vm_compute; [reflexivity | discriminate].
Defined.

(** A blank answer is truthy, so it is returned -- stripped to nothing --
    and the worker sends the placeholder. *)
Example dify_blank_answer :
  _call_dify_agent Sample.rt
    (Sample.answers (JDict [(lit "answer", JStr (lit "  "))]))
    Sample.configured (lit "great show")
  = Ok [].
Proof. vm_compute. reflexivity. Qed.




(** An older message is used only when the newer ones have no usable text. *)
Example coze_falls_back_to_older :
  _call_coze_agent Sample.rt
    (Sample.answers
       (JDict [(lit "messages",
                JList [JDict [(lit "content", JStr (lit "old"))];
                       JDict [(lit "content", JStr (lit "  "))];
                       JDict [(lit "role", JStr (lit "assistant"))]])]))
    Sample.configured (lit "great show")
  = Ok (lit "old").
Proof. vm_compute. reflexivity. Qed.
